(** * asgi-correlation-id: the correlation-ID middleware

    A shallow embedding of [asgi_correlation_id/middleware.py] and of the
    parts of the Python standard library and of Starlette's header
    containers that the middleware calls, followed by the properties of
    the middleware stated in the specification.

    Conventions.
    - A Python [str] that travels through HTTP headers is Latin-1 text
      (Starlette decodes and encodes header bytes with "latin-1"); it is
      modelled by [string], whose characters are the 256 code points of
      Latin-1, so that [encode]/[decode] are the identity.
    - A Python [int] is [Z]; the bit operations of [uuid.UUID] are
      [Z.land], [Z.lor], [Z.lnot] and [Z.shiftl].
    - A call that may raise returns a [result]; a call that may also touch
      the surroundings (context variable, log, whatever the callables of
      the configuration own) lives in the monad [M] of section
      [Middleware]. *)

From Stdlib Require Import ZArith List String Ascii Bool Lia.
From Stdlib Require Strings.Byte.
Import ListNotations.

Local Open Scope string_scope.
Local Open Scope bool_scope.

(* ================================================================== *)
(** ** Exceptions and results *)

Inductive exn : Type :=
| ValueError (msg : string)
| KeyError (key : string)
| ImportError (name : string)
| OtherError (cls msg : string).

Inductive result (A : Type) : Type :=
| Ok (a : A)
| Raise (e : exn).

Arguments Ok {A} a.
Arguments Raise {A} e.

(* ================================================================== *)
(** ** Python built-ins on [str] *)

Module Py.

(** Code point of a character. *)
Definition ord (c : ascii) : nat := nat_of_ascii c.

Fixpoint all_chars (p : ascii -> bool) (s : string) : bool :=
  match s with
  | EmptyString => true
  | String c s' => p c && all_chars p s'
  end.

Fixpoint mem_char (c : ascii) (chars : string) : bool :=
  match chars with
  | EmptyString => false
  | String d chars' => Ascii.eqb c d || mem_char c chars'
  end.

(** [str.lower()] on Latin-1 text: the ASCII capitals and the capitals of
    the Latin-1 supplement (U+00C0..U+00DE, the multiplication sign U+00D7
    apart) move up by 32; every other character stays. *)
Definition lower_char (c : ascii) : ascii :=
  let n := ord c in
  if ((65 <=? n) && (n <=? 90)
      || (192 <=? n) && (n <=? 222) && negb (n =? 215))%nat
  then ascii_of_nat (n + 32)
  else c.

Fixpoint lower (s : string) : string :=
  match s with
  | EmptyString => EmptyString
  | String c s' => String (lower_char c) (lower s')
  end.

(** [s.startswith(p)]. *)
Fixpoint startswith (p s : string) : bool :=
  match p with
  | EmptyString => true
  | String a p' =>
      match s with
      | EmptyString => false
      | String c s' => Ascii.eqb c a && startswith p' s'
      end
  end.

(** [str.replace(old, new)]: the non-overlapping occurrences of [old],
    found from the left, are replaced by [new].  [skip] counts the
    characters of the occurrence just matched that are still to be
    consumed. *)
Fixpoint replace_from (old new : string) (skip : nat) (s : string) : string :=
  match s with
  | EmptyString => EmptyString
  | String c s' =>
      match skip with
      | S k => replace_from old new k s'
      | O =>
          if startswith old s
          then new ++ replace_from old new (length old - 1) s'
          else String c (replace_from old new 0 s')
      end
  end.

(** With an empty [old], Python puts [new] before every character and at
    the end. *)
Fixpoint intersperse (new s : string) : string :=
  match s with
  | EmptyString => new
  | String c s' => new ++ String c (intersperse new s')
  end.

Definition replace (old new s : string) : string :=
  match old with
  | EmptyString => intersperse new s
  | _ => replace_from old new 0 s
  end.

(** [str.strip(chars)]: leading and trailing characters that belong to
    [chars] are removed. *)
Fixpoint lstrip (chars s : string) : string :=
  match s with
  | EmptyString => EmptyString
  | String c s' => if mem_char c chars then lstrip chars s' else s
  end.

Fixpoint rstrip (chars s : string) : string :=
  match s with
  | EmptyString => EmptyString
  | String c s' =>
      match rstrip chars s' with
      | EmptyString => if mem_char c chars then EmptyString else String c EmptyString
      | r => String c r
      end
  end.

Definition strip (chars s : string) : string := rstrip chars (lstrip chars s).

(** *** [int(s, 16)]

    CPython first maps a non-ASCII [str] to ASCII
    ([_PyUnicode_TransformDecimalAndSpaceToASCII]): characters below 127
    are kept, Unicode white space becomes a blank, and a character that is
    neither white space nor a decimal digit becomes ['?'] and ends the
    text.  In Latin-1 the white space above 127 is U+0085 and U+00A0, and
    there is no decimal digit above 127. *)
Definition is_ascii (c : ascii) : bool := (ord c <? 128)%nat.

Fixpoint transform_to_ascii (s : string) : string :=
  match s with
  | EmptyString => EmptyString
  | String c s' =>
      if (ord c <? 127)%nat then String c (transform_to_ascii s')
      else if ((ord c =? 133) || (ord c =? 160))%nat
           then String " " (transform_to_ascii s')
           else "?"
  end.

Definition to_ascii (s : string) : string :=
  if all_chars is_ascii s then s else transform_to_ascii s.

(** [Py_ISSPACE]: blank, and the control characters 9 to 13. *)
Definition c_isspace (c : ascii) : bool :=
  ((ord c =? 32) || (9 <=? ord c) && (ord c <=? 13))%nat.

(** [_PyLong_DigitValue] below 16. *)
Definition hex_digit (c : ascii) : option Z :=
  let n := ord c in
  if ((48 <=? n) && (n <=? 57))%nat then Some (Z.of_nat (n - 48))
  else if ((97 <=? n) && (n <=? 102))%nat then Some (Z.of_nat (n - 87))
  else if ((65 <=? n) && (n <=? 70))%nat then Some (Z.of_nat (n - 55))
  else None.

Definition is_underscore (c : ascii) : bool := Ascii.eqb c "_".

(** The digit loop of [PyLong_FromString]: digits and single underscores
    between digits.  [prev_us] tells whether the previous character was an
    underscore, [seen] whether a digit was read.  The result is the value,
    [seen], and what is left of the text. *)
Fixpoint scan_digits (s : string) (prev_us seen : bool) (acc : Z)
  : option (Z * bool * string) :=
  match s with
  | EmptyString => if prev_us then None else Some (acc, seen, EmptyString)
  | String c s' =>
      if is_underscore c then
        if prev_us then None else scan_digits s' true seen acc
      else
        match hex_digit c with
        | Some d => scan_digits s' false true (16 * acc + d)
        | None => if prev_us then None else Some (acc, seen, s)
        end
  end.

Fixpoint skip_spaces (s : string) : string :=
  match s with
  | EmptyString => EmptyString
  | String c s' => if c_isspace c then skip_spaces s' else s
  end.

Definition take_sign (s : string) : Z * string :=
  match s with
  | String c s' =>
      if Ascii.eqb c "+" then (1%Z, s')
      else if Ascii.eqb c "-" then ((-1)%Z, s')
      else (1%Z, s)
  | EmptyString => (1%Z, s)
  end.

(** The optional ["0x"] / ["0X"] prefix, after which one underscore is
    allowed. *)
Definition take_prefix16 (s : string) : string :=
  match s with
  | String c (String x s') =>
      if Ascii.eqb c "0" && (Ascii.eqb x "x" || Ascii.eqb x "X") then
        match s' with
        | String u s'' => if is_underscore u then s'' else s'
        | EmptyString => s'
        end
      else s
  | _ => s
  end.

Definition starts_with_underscore (s : string) : bool :=
  match s with
  | String c _ => is_underscore c
  | EmptyString => false
  end.

(** [PyLong_FromString(s, 16)]; [None] stands for the [ValueError]
    "invalid literal for int() with base 16". *)
Definition long_from_string16 (s : string) : option Z :=
  let (sign, s1) := take_sign (skip_spaces s) in
  let s2 := take_prefix16 s1 in
  if starts_with_underscore s2 then None
  else
    match scan_digits s2 false false 0 with
    | Some (v, true, rest) =>
        match skip_spaces rest with
        | EmptyString => Some (sign * v)%Z
        | _ => None
        end
    | _ => None
    end.

Definition int16 (s : string) : option Z := long_from_string16 (to_ascii s).

(** *** [msg % args] for the directives [%s] and [%%]

    [None] stands for the [TypeError] / [ValueError] Python raises when
    arguments and directives do not match, or for a directive outside this
    fragment. *)
Fixpoint percent_format (template : string) (args : list string) : option string :=
  match template with
  | EmptyString =>
      match args with
      | [] => Some EmptyString
      | _ => None
      end
  | String "%" (String "s" rest) =>
      match args with
      | a :: args' => option_map (append a) (percent_format rest args')
      | [] => None
      end
  | String "%" (String "%" rest) =>
      option_map (String "%") (percent_format rest args)
  | String "%" _ => None
  | String c rest => option_map (String c) (percent_format rest args)
  end.

End Py.

(* ================================================================== *)
(** ** [uuid.UUID] *)

Module Uuid.

(** A [UUID] object holds its 128-bit value in the attribute [int]. *)
Record UUID : Type := mkUUID { int : Z }.

(** The assignments of [UUID.__init__] under [if version is not None]:
    the variant is set to RFC 4122 and the version number is stored in
    bits 76 to 79. *)
Definition set_version (i version : Z) : Z :=
  let i := Z.land i (Z.lnot (Z.shiftl 0xc000 48)) in
  let i := Z.lor i (Z.shiftl 0x8000 48) in
  let i := Z.land i (Z.lnot (Z.shiftl 0xf000 64)) in
  Z.lor i (Z.shiftl version 76).

(** [UUID(hex, version=version)]. *)
Definition UUID_init (hex : string) (version : option Z) : result UUID :=
  let hex := Py.replace "uuid:" "" (Py.replace "urn:" "" hex) in
  let hex := Py.replace "-" "" (Py.strip "{}" hex) in
  if negb (length hex =? 32)%nat then
    Raise (ValueError "badly formed hexadecimal UUID string")
  else
    match Py.int16 hex with
    | None => Raise (ValueError "invalid literal for int() with base 16")
    | Some i =>
        if negb ((0 <=? i) && (i <? Z.shiftl 1 128))%Z then
          Raise (ValueError "int is out of range (need a 128-bit value)")
        else
          match version with
          | None => Ok (mkUUID i)
          | Some v =>
              if negb ((1 <=? v) && (v <=? 5))%Z then
                Raise (ValueError "illegal version number")
              else Ok (mkUUID (set_version i v))
          end
    end.

Inductive Variant : Type :=
| RESERVED_NCS | RFC_4122 | RESERVED_MICROSOFT | RESERVED_FUTURE.

(** The property [UUID.variant]. *)
Definition variant (u : UUID) : Variant :=
  if (Z.land (int u) (Z.shiftl 0x8000 48) =? 0)%Z then RESERVED_NCS
  else if (Z.land (int u) (Z.shiftl 0x4000 48) =? 0)%Z then RFC_4122
  else if (Z.land (int u) (Z.shiftl 0x2000 48) =? 0)%Z then RESERVED_MICROSOFT
  else RESERVED_FUTURE.

(** The property [UUID.version]: meaningful for RFC 4122 UUIDs only. *)
Definition version (u : UUID) : option Z :=
  match variant u with
  | RFC_4122 => Some (Z.land (Z.shiftr (int u) 76) 0xf)
  | _ => None
  end.

(** [bool(u)]: the class defines neither [__bool__] nor [__len__], so
    every instance is true. *)
Definition truth (u : UUID) : bool := true.

End Uuid.

(* ================================================================== *)
(** ** The default validator *)

(** [is_valid_uuid4]: the constructor is tried with [version=4]; a
    [ValueError] is turned into [False], any other exception would
    propagate. *)
Definition is_valid_uuid4 (uuid_ : string) : result bool :=
  match Uuid.UUID_init uuid_ (Some 4%Z) with
  | Ok u => Ok (Uuid.truth u)
  | Raise (ValueError _) => Ok false
  | Raise e => Raise e
  end.

Definition FAILED_VALIDATION_MESSAGE : string :=
  "Generated new request ID (%s), since request header value failed validation".

(* ================================================================== *)
(** ** Starlette's [Headers] and [MutableHeaders]

    Both wrap the raw header list of an ASGI scope or message: pairs of
    byte strings, the names in lower case.  [MutableHeaders(scope=d)]
    makes [d["headers"]] a list and works on that very list, so every
    update below is an update of the scope or message itself. *)

Module Starlette.

Definition RawHeaders : Type := list (string * string).

Fixpoint find_key (l : RawHeaders) (k : string) : option string :=
  match l with
  | [] => None
  | (header_key, header_value) :: l' =>
      if header_key =? k then Some header_value else find_key l' k
  end.

(** [Headers.__getitem__]: the first entry under the lower-cased key. *)
Definition getitem (l : RawHeaders) (key : string) : result string :=
  match find_key l (Py.lower key) with
  | Some v => Ok v
  | None => Raise (KeyError key)
  end.

(** [Mapping.get]: [None] where [__getitem__] raises [KeyError]. *)
Definition get (l : RawHeaders) (key : string) : option string :=
  match getitem l key with
  | Ok v => Some v
  | Raise _ => None
  end.

Fixpoint found_indexes_from (idx : nat) (l : RawHeaders) (set_key : string) : list nat :=
  match l with
  | [] => []
  | (item_key, _) :: l' =>
      if item_key =? set_key
      then idx :: found_indexes_from (S idx) l' set_key
      else found_indexes_from (S idx) l' set_key
  end.

(** [del l[idx]] and [l[idx] = x]. *)
Definition del_index (l : RawHeaders) (idx : nat) : RawHeaders :=
  (firstn idx l ++ skipn (S idx) l)%list.

Definition set_index (l : RawHeaders) (idx : nat) (x : string * string) : RawHeaders :=
  (firstn idx l ++ x :: skipn (S idx) l)%list.

(** [MutableHeaders.__setitem__]: duplicate entries are removed, the first
    one is overwritten in place; without any, the entry is added at the
    end. *)
Definition setitem (l : RawHeaders) (key value : string) : RawHeaders :=
  let set_key := Py.lower key in
  let found_indexes := found_indexes_from 0 l set_key in
  let l := fold_left del_index (rev (tl found_indexes)) l in
  match found_indexes with
  | idx :: _ => set_index l idx (set_key, value)
  | [] => (l ++ [(set_key, value)])%list
  end.

(** [MutableHeaders.append]: one more entry at the end, whatever is
    there already. *)
Definition append (l : RawHeaders) (key value : string) : RawHeaders :=
  (l ++ [(Py.lower key, value)])%list.

(** What [setitem] computes, by recursion on the list. *)
Definition remove_key (k : string) (l : RawHeaders) : RawHeaders :=
  filter (fun kv => negb (fst kv =? k)) l.

Fixpoint overwrite (k v : string) (l : RawHeaders) : RawHeaders :=
  match l with
  | [] => [(k, v)]
  | (k', v') :: l' =>
      if k' =? k then (k, v) :: remove_key k l'
      else (k', v') :: overwrite k v l'
  end.

End Starlette.

(* ================================================================== *)
(** ** The middleware *)

(** A record of the [logging] module: level, message template and the
    arguments still to be merged into it. *)
Record LogRecord : Type := mkLogRecord {
  levelname : string;
  msg : string;
  args : list string
}.

(** [LogRecord.getMessage]: [msg % args], or [msg] as it is without
    arguments. *)
Definition getMessage (r : LogRecord) : option string :=
  match args r with
  | [] => Some (msg r)
  | a => Py.percent_format (msg r) a
  end.

(** Truth value of an [Optional[str]]: [None] and [''] are false. *)
Definition truthy (v : option string) : bool :=
  match v with
  | Some (String _ _) => true
  | _ => false
  end.

(** [a != b] between a [str] and an [Optional[str]]. *)
Definition differs (a : string) (b : option string) : bool :=
  match b with
  | Some b' => negb (a =? b')
  | None => true
  end.

Section Middleware.

(** What the surroundings own: the state of the application, of the
    integrations and of the source of randomness. *)
Variable Ext : Type.
(** The entries of a scope or of a message other than ['type'] and
    ['headers']; the middleware never reads them. *)
Variable Other : Type.
(** The ASGI [receive] callable; the middleware only hands it on. *)
Variable Receive : Type.

(** Modelled from the spec: [asgi_correlation_id.context.correlation_id],
    the request-scoped context slot, declared in a module that is not part
    of the sources at hand.  It holds at most one correlation ID and "no
    value" outside of a request; [correlation_id_get] and
    [correlation_id_set] are its getter and setter.  The world also holds
    the records sent to the logger ['asgi_correlation_id']. *)
Record World : Type := mkWorld {
  correlation_id : option string;
  records : list LogRecord;
  ext : Ext
}.

(** Computations: they start in a world, end in a world, and return or
    raise.  What was done before an exception stays done. *)
Definition M (A : Type) : Type := World -> result A * World.

Definition ret {A : Type} (a : A) : M A := fun w => (Ok a, w).

Definition raise {A : Type} (e : exn) : M A := fun w => (Raise e, w).

Definition bind {A B : Type} (m : M A) (f : A -> M B) : M B :=
  fun w =>
    match m w with
    | (Ok a, w') => f a w'
    | (Raise e, w') => (Raise e, w')
    end.

Definition lift {A : Type} (r : result A) : M A := fun w => (r, w).

Notation "x <- m ;; k" := (bind m (fun x => k))
  (at level 61, m at next level, right associativity).
Notation "m ;; k" := (bind m (fun _ => k))
  (at level 61, right associativity).

Definition correlation_id_get : M (option string) :=
  fun w => (Ok (correlation_id w), w).

Definition correlation_id_set (value : string) : M unit :=
  fun w => (Ok tt, mkWorld (Some value) (records w) (ext w)).

(** [logger.warning(msg, *args)]. *)
Definition logger_warning (template : string) (arguments : list string) : M unit :=
  fun w =>
    (Ok tt,
     mkWorld (correlation_id w)
             (records w ++ [mkLogRecord "WARNING" template arguments])%list
             (ext w)).

(** ASGI connection scope and message: dictionaries with a ['type'] and
    raw ['headers'].  An HTTP scope always carries its ['headers'] entry.
    A message need not: ASGI leaves the entry optional in the message that
    starts a response, and other messages have none; [None] is a message
    without it. *)
Record Scope : Type := mkScope {
  scope_type : string;
  scope_headers : Starlette.RawHeaders;
  scope_other : Other
}.

Record Message : Type := mkMessage {
  message_type : string;
  message_headers : option Starlette.RawHeaders;
  message_other : Other
}.

Definition Send : Type := Message -> M unit.
Definition ASGIApp : Type := Scope -> Receive -> Send -> M unit.
Definition Hook : Type := string -> M unit.

(** The dataclass [CorrelationIdMiddleware]. *)
Record CorrelationIdMiddleware : Type := mkMiddleware {
  app : ASGIApp;
  header_name : string;
  update_request_header : bool;
  generator : M string;
  validator : option (string -> M bool);
  transformer : option (string -> M string);
  hooks : list Hook
}.

(** The field defaults.  [uuid4_hex] stands for [uuid4().hex], which
    draws on the randomness of the surroundings. *)
Definition defaults (app : ASGIApp) (uuid4_hex : M string) : CorrelationIdMiddleware :=
  {| app := app;
     header_name := "X-Request-ID";
     update_request_header := true;
     generator := uuid4_hex;
     validator := Some (fun uuid_ => lift (is_valid_uuid4 uuid_));
     transformer := Some (fun a => ret a);
     hooks := [] |}.

(** *** [__call__], block by block *)

(** Lines 58 to 67: the ID is generated when no header value was found,
    generated with a warning when the validator rejects the value found,
    and is the value found otherwise. *)
Definition resolve_id (self : CorrelationIdMiddleware) (header_value : option string)
  : M string :=
  match header_value with
  | Some (String _ _ as found) =>
      match validator self with
      | Some validate =>
          valid <- validate found ;;
          if negb valid then
            id_value <- generator self ;;
            logger_warning FAILED_VALIDATION_MESSAGE [found] ;;
            ret id_value
          else ret found
      | None => ret found
      end
  | _ => generator self
  end.

(** Lines 70 and 71. *)
Definition transform_id (self : CorrelationIdMiddleware) (id_value : string) : M string :=
  match transformer self with
  | Some transform => transform id_value
  | None => ret id_value
  end.

(** Lines 74 and 75: [headers[self.header_name] = id_value] writes into
    the header list of the scope. *)
Definition update_request_headers (self : CorrelationIdMiddleware) (scope : Scope)
    (header_value : option string) (id_value : string) : Scope :=
  if differs id_value header_value && update_request_header self
  then mkScope (scope_type scope)
               (Starlette.setitem (scope_headers scope) (header_name self) id_value)
               (scope_other scope)
  else scope.

(** Lines 79 and 80. *)
Fixpoint call_hooks (hs : list Hook) (id_value : string) : M unit :=
  match hs with
  | [] => ret tt
  | hook :: hs' => hook id_value ;; call_hooks hs' id_value
  end.

(** Lines 83 to 85, on the dictionary the handler passed: what that
    dictionary holds when they are done.  The two calls of
    [correlation_id.get()] read the same slot with nothing in between, so
    the slot is read once.  [MutableHeaders(scope=message)] reads
    [message["headers"]] and raises [KeyError] where the message has no
    such entry; where it has one, [append] adds the header to the
    dictionary itself, not to a copy. *)
Definition outgoing_message (self : CorrelationIdMiddleware) (message : Message)
  : M Message :=
  if message_type message =? "http.response.start" then
    current <- correlation_id_get ;;
    match current with
    | Some (String _ _ as cid) =>
        match message_headers message with
        | Some headers =>
            ret (mkMessage (message_type message)
                   (Some (Starlette.append headers (header_name self) cid))
                   (message_other message))
        | None => raise (KeyError "headers")
        end
    | _ => ret message
    end
  else ret message.

(** Lines 82 to 87, the wrapper around [send]: line 87 passes on the
    handler's own dictionary as lines 83 to 85 left it.  A message is the
    content of a dictionary at the time of a call, so a handler that
    passes one dictionary a second time passes what the first call left
    in it. *)
Definition handle_outgoing_request (self : CorrelationIdMiddleware) (send : Send)
    (message : Message) : M unit :=
  message <- outgoing_message self message ;;
  send message.

Definition call (self : CorrelationIdMiddleware) (scope : Scope) (receive : Receive)
    (send : Send) : M unit :=
  if negb (scope_type scope =? "http") then app self scope receive send
  else
    let header_value :=
      Starlette.get (scope_headers scope) (Py.lower (header_name self)) in
    id_value <- resolve_id self header_value ;;
    id_value <- transform_id self id_value ;;
    let scope := update_request_headers self scope header_value id_value in
    correlation_id_set id_value ;;
    call_hooks (hooks self) id_value ;;
    app self scope receive (handle_outgoing_request self send).

(** *** [__post_init__] *)

(** What the two optional packages provide where they can be imported:
    [load_correlation_ids] of [asgi_correlation_id_celery_extension] and
    [set_transaction_id] of [asgi_correlation_id_sentry_extension].
    [None] is a package whose import raises [ImportError]. *)
Record Environment : Type := mkEnvironment {
  load_correlation_ids : option (M unit);
  set_transaction_id : option Hook
}.

(** [try: ... except ImportError: pass]. *)
Definition except_ImportError (body : M unit) : M unit :=
  fun w =>
    match body w with
    | (Raise (ImportError _), w') => (Ok tt, w')
    | r => r
    end.

Definition with_hooks (self : CorrelationIdMiddleware) (hs : list Hook)
  : CorrelationIdMiddleware :=
  mkMiddleware (app self) (header_name self) (update_request_header self)
               (generator self) (validator self) (transformer self) hs.

Definition post_init (env : Environment) (self : CorrelationIdMiddleware)
  : M CorrelationIdMiddleware :=
  except_ImportError
    (match load_correlation_ids env with
     | Some load => load
     | None => raise (ImportError "asgi_correlation_id_celery_extension")
     end) ;;
  match set_transaction_id env with
  | Some hook => ret (with_hooks self (hooks self ++ [hook])%list)
  | None => ret self
  end.

End Middleware.

Arguments mkWorld {Ext}.
Arguments correlation_id {Ext}.
Arguments records {Ext}.
Arguments ext {Ext}.
Arguments ret {Ext A}.
Arguments raise {Ext A}.
Arguments bind {Ext A B}.
Arguments lift {Ext A}.
Arguments correlation_id_get {Ext}.
Arguments correlation_id_set {Ext}.
Arguments logger_warning {Ext}.
Arguments mkScope {Other}.
Arguments scope_type {Other}.
Arguments scope_headers {Other}.
Arguments scope_other {Other}.
Arguments mkMessage {Other}.
Arguments message_type {Other}.
Arguments message_headers {Other}.
Arguments message_other {Other}.
Arguments mkMiddleware {Ext Other Receive}.
Arguments app {Ext Other Receive}.
Arguments header_name {Ext Other Receive}.
Arguments update_request_header {Ext Other Receive}.
Arguments generator {Ext Other Receive}.
Arguments validator {Ext Other Receive}.
Arguments transformer {Ext Other Receive}.
Arguments hooks {Ext Other Receive}.
Arguments defaults {Ext Other Receive}.
Arguments resolve_id {Ext Other Receive}.
Arguments transform_id {Ext Other Receive}.
Arguments update_request_headers {Ext Other Receive}.
Arguments call_hooks {Ext}.
Arguments outgoing_message {Ext Other Receive}.
Arguments handle_outgoing_request {Ext Other Receive}.
Arguments call {Ext Other Receive}.
Arguments mkEnvironment {Ext}.
Arguments load_correlation_ids {Ext}.
Arguments set_transaction_id {Ext}.
Arguments except_ImportError {Ext}.
Arguments with_hooks {Ext Other Receive}.
Arguments post_init {Ext Other Receive}.

Notation "x <- m ;; k" := (bind m (fun x => k))
  (at level 61, m at next level, right associativity).
Notation "m ;; k" := (bind m (fun _ => k))
  (at level 61, right associativity).

(** The world in which the ID has just been published. *)
Definition published {Ext : Type} (id_value : string) (w : World Ext) : World Ext :=
  mkWorld (Some id_value) (records w) (ext w).

(** The world in which the warning about a rejected value has just been
    logged. *)
Definition warned {Ext : Type} (rejected : string) (w : World Ext) : World Ext :=
  mkWorld (correlation_id w)
          (records w ++ [mkLogRecord "WARNING" FAILED_VALIDATION_MESSAGE [rejected]])%list
          (ext w).

(** The message with another header list. *)
Definition with_headers {Other : Type} (message : Message Other)
    (headers : Starlette.RawHeaders) : Message Other :=
  mkMessage (message_type message) (Some headers) (message_other message).

(** What a lookup by name finds in the headers of a message. *)
Definition response_header {Other : Type} (message : Message Other) (name : string)
  : option string :=
  match message_headers message with
  | Some headers => Starlette.get headers name
  | None => None
  end.

Definition with_app {Ext Other Receive : Type}
    (self : CorrelationIdMiddleware Ext Other Receive) (inner : ASGIApp Ext Other Receive)
  : CorrelationIdMiddleware Ext Other Receive :=
  mkMiddleware inner (header_name self) (update_request_header self)
               (generator self) (validator self) (transformer self) (hooks self).

(** *** Texts of UUIDs *)

Definition is_lower_hex (c : ascii) : bool :=
  ((48 <=? Py.ord c) && (Py.ord c <=? 57) || (97 <=? Py.ord c) && (Py.ord c <=? 102))%nat.

Definition is_hex (c : ascii) : bool :=
  match Py.hex_digit c with
  | Some _ => true
  | None => false
  end.

(** Hexadecimal digits only, in either case. *)
Definition hex_text (s : string) : bool := Py.all_chars is_hex s.

(** Hexadecimal digits and hyphens only. *)
Definition plain_text (s : string) : bool :=
  Py.all_chars (fun c => is_hex c || Ascii.eqb c "-") s.

(** The 32 lower-case hexadecimal digits of [uuid4().hex]. *)
Definition lower_hex32 (s : string) : bool :=
  (length s =? 32)%nat && Py.all_chars is_lower_hex s.

(** The canonical text of a UUID: five groups of digits between hyphens. *)
Definition hyphenated (a b c d e : string) : string :=
  a ++ "-" ++ b ++ "-" ++ c ++ "-" ++ d ++ "-" ++ e.

(** What the four clean-up calls of [UUID.__init__] leave of a text. *)
Definition digits_of (hex : string) : string :=
  Py.replace "-" "" (Py.strip "{}" (Py.replace "uuid:" "" (Py.replace "urn:" "" hex))).

(** The hooks [__post_init__] adds in an environment. *)
Definition optional_hooks {Ext : Type} (env : Environment Ext) : list (Hook Ext) :=
  match set_transaction_id env with
  | Some hook => [hook]
  | None => []
  end.

(** The value [__call__] finds under the configured header of a scope. *)
Definition inbound_value {Ext Other Receive : Type}
    (self : CorrelationIdMiddleware Ext Other Receive) (scope : Scope Other)
  : option string :=
  Starlette.get (scope_headers scope) (Py.lower (header_name self)).

(** Lines 70 to 89: what [__call__] does once the ID is resolved. *)
Definition after_resolution {Ext Other Receive : Type}
    (self : CorrelationIdMiddleware Ext Other Receive) (scope : Scope Other)
    (receive : Receive) (send : Send Ext Other) (resolved : string) : M Ext unit :=
  final <- transform_id self resolved ;;
  correlation_id_set final ;;
  call_hooks (hooks self) final ;;
  app self (update_request_headers self scope (inbound_value self scope) final)
      receive (handle_outgoing_request self send).

(** *** The default generator, [uuid4().hex] *)

Module Uuid4.

(** [int.from_bytes(bs)], big endian. *)
Definition int_from_bytes (bs : list Byte.byte) : Z :=
  fold_left (fun acc b => (acc * 256 + Z.of_N (Byte.to_N b))%Z) bs 0%Z.

(** [UUID(bytes=bs, version=version)]. *)
Definition UUID_from_bytes (bs : list Byte.byte) (version : option Z) : result Uuid.UUID :=
  if negb (List.length bs =? 16)%nat then
    Raise (ValueError "bytes is not a 16-char string")
  else
    let i := int_from_bytes bs in
    if negb ((0 <=? i) && (i <? Z.shiftl 1 128))%Z then
      Raise (ValueError "int is out of range (need a 128-bit value)")
    else
      match version with
      | None => Ok (Uuid.mkUUID i)
      | Some v =>
          if negb ((1 <=? v) && (v <=? 5))%Z then
            Raise (ValueError "illegal version number")
          else Ok (Uuid.mkUUID (Uuid.set_version i v))
      end.

(** The digit of ['%x'] for a value below 16. *)
Definition hex_char_of (d : Z) : ascii :=
  match d with
  | 0%Z => "0" | 1%Z => "1" | 2%Z => "2" | 3%Z => "3"
  | 4%Z => "4" | 5%Z => "5" | 6%Z => "6" | 7%Z => "7"
  | 8%Z => "8" | 9%Z => "9" | 10%Z => "a" | 11%Z => "b"
  | 12%Z => "c" | 13%Z => "d" | 14%Z => "e" | _ => "f"
  end%char.

(** The digits of [i], the last one first into [acc]. *)
Fixpoint hex_digits (fuel : nat) (i : Z) (acc : string) : string :=
  match fuel with
  | O => acc
  | S fuel' =>
      if (i =? 0)%Z then acc
      else hex_digits fuel' (i / 16)%Z (String (hex_char_of (i mod 16)%Z) acc)
  end.

(** ['%x' % i] for [0 <= i]. *)
Definition format_x (i : Z) : string :=
  if (i =? 0)%Z then "0" else hex_digits (S (Z.to_nat (Z.log2 i))) i "".

Fixpoint zeros (n : nat) : string :=
  match n with
  | O => ""
  | S n' => String "0" (zeros n')
  end.

(** ['%032x' % i]: at least 32 digits, zeros first. *)
Definition format_032x (i : Z) : string :=
  let digits := format_x i in
  zeros (32 - length digits) ++ digits.

(** The property [UUID.hex]. *)
Definition hex (u : Uuid.UUID) : string := format_032x (Uuid.int u).

(** [uuid4().hex], that is [UUID(bytes=os.urandom(16), version=4).hex];
    [urandom] stands for [os.urandom]. *)
Definition uuid4_hex {Ext : Type} (urandom : nat -> M Ext (list Byte.byte)) : M Ext string :=
  random_bytes <- urandom 16 ;;
  u <- lift (UUID_from_bytes random_bytes (Some 4%Z)) ;;
  ret (hex u).

End Uuid4.

(** *** Texts the validator meets *)

(** No character that the clean-up of [UUID.__init__] looks for, and
    ASCII only. *)
Definition clean_char (c : ascii) : bool :=
  Py.is_ascii c && negb (Py.mem_char c "u-{}").

Definition clean_text (s : string) : bool := Py.all_chars clean_char s.

(** An ASCII character that is no digit of base 16, no underscore and no
    white space, and that the clean-up leaves alone. *)
Definition stray (c : ascii) : bool :=
  clean_char c && negb (is_hex c || Py.is_underscore c || Py.c_isspace c).

(** The number that the digits of a text of base 16 write, read from the
    left on top of [acc]. *)
Fixpoint digits_value (s : string) (acc : Z) : Z :=
  match s with
  | EmptyString => acc
  | String c s' =>
      digits_value s' (16 * acc + match Py.hex_digit c with
                                  | Some d => d
                                  | None => 0
                                  end)%Z
  end.

(** *** Handlers and hooks *)

(** A callable that leaves the context slot as it found it, whether it
    returns or raises. *)
Definition keeps_context {Ext A B : Type} (f : A -> M Ext B) : Prop :=
  forall a w r w', f a w = (r, w') -> correlation_id w' = correlation_id w.

Definition with_header_name {Ext Other Receive : Type}
    (self : CorrelationIdMiddleware Ext Other Receive) (name : string)
  : CorrelationIdMiddleware Ext Other Receive :=
  mkMiddleware (app self) name (update_request_header self)
               (generator self) (validator self) (transformer self) (hooks self).

Definition with_generator {Ext Other Receive : Type}
    (self : CorrelationIdMiddleware Ext Other Receive) (gen : M Ext string)
  : CorrelationIdMiddleware Ext Other Receive :=
  mkMiddleware (app self) (header_name self) (update_request_header self)
               gen (validator self) (transformer self) (hooks self).

(** *** A concrete setting

    Surroundings that only keep a trace of what reached them, with
    handlers, hooks and generators that are as simple as can be. *)
Module Demo.

Inductive Event : Type :=
| Sent (message : Message unit)
| Handled (scope : Scope unit)
| Hooked (id_value : string)
| Generated (id_value : string).

Definition Trace : Type := list Event.

Definition emit (e : Event) : M Trace unit :=
  fun w => (Ok tt, mkWorld (correlation_id w) (records w) (ext w ++ [e])%list).

Definition wire : Send Trace unit := fun message => emit (Sent message).

Fixpoint send_all (send : Send Trace unit) (messages : list (Message unit)) : M Trace unit :=
  match messages with
  | [] => ret tt
  | message :: rest => send message ;; send_all send rest
  end.

(** An inner handler that answers with the given messages. *)
Definition responding (messages : list (Message unit)) : ASGIApp Trace unit unit :=
  fun scope _ send => emit (Handled scope) ;; send_all send messages.

Definition fixed (id_value : string) : M Trace string :=
  emit (Generated id_value) ;; ret id_value.

Definition recording_hook : Hook Trace := fun id_value => emit (Hooked id_value).

Definition start (headers : Starlette.RawHeaders) : Message unit :=
  mkMessage "http.response.start" (Some headers) tt.

Definition body : Message unit := mkMessage "http.response.body" None tt.

Definition request (headers : Starlette.RawHeaders) : Scope unit :=
  mkScope "http" headers tt.

Definition websocket : Scope unit := mkScope "websocket" [] tt.

Definition idle : World Trace := mkWorld None [] [].

Definition cid : string := "0123456789abcdef0123456789abcdef".

(** The environment in which neither optional package is installed, and
    the one in which the Sentry extension is. *)
Definition bare : Environment Trace := mkEnvironment None None.

Definition with_sentry : Environment Trace := mkEnvironment None (Some recording_hook).

(** The default middleware around a handler that answers with [messages]. *)
Definition default_app (messages : list (Message unit))
  : CorrelationIdMiddleware Trace unit unit :=
  defaults (responding messages) (fixed "ffffffffffffffffffffffffffffffff").

(** The middlewares of the test suite: the default validator with a
    doubling transformer, no validator and no transformer, and a constant
    generator. *)
Definition transformer_app (messages : list (Message unit))
  : CorrelationIdMiddleware Trace unit unit :=
  mkMiddleware (responding messages) "X-Request-ID" true
               (fixed "ffffffffffffffffffffffffffffffff")
               (Some (fun uuid_ => lift (is_valid_uuid4 uuid_)))
               (Some (fun a => ret (a ++ a)))
               [].

Definition no_validator_or_transformer_app (messages : list (Message unit))
  : CorrelationIdMiddleware Trace unit unit :=
  mkMiddleware (responding messages) "X-Request-ID" true
               (fixed "ffffffffffffffffffffffffffffffff")
               None None [].

Definition generator_app (messages : list (Message unit))
  : CorrelationIdMiddleware Trace unit unit :=
  mkMiddleware (responding messages) "X-Request-ID" true
               (fixed "generated")
               (Some (fun uuid_ => lift (is_valid_uuid4 uuid_)))
               (Some (fun a => ret a))
               [recording_hook].

(** Misconfigured middlewares: a generator, a transformer, a hook that
    raises. *)
Definition boom : exn := OtherError "RuntimeError" "boom".

Definition broken_generator_app (messages : list (Message unit))
  : CorrelationIdMiddleware Trace unit unit :=
  mkMiddleware (responding messages) "X-Request-ID" true
               (raise boom)
               (Some (fun uuid_ => lift (is_valid_uuid4 uuid_)))
               (Some (fun a => ret a))
               [recording_hook].

Definition broken_transformer_app (messages : list (Message unit))
  : CorrelationIdMiddleware Trace unit unit :=
  mkMiddleware (responding messages) "X-Request-ID" true
               (fixed "generated")
               (Some (fun uuid_ => lift (is_valid_uuid4 uuid_)))
               (Some (fun _ => raise boom))
               [recording_hook].

Definition broken_hook_app (messages : list (Message unit))
  : CorrelationIdMiddleware Trace unit unit :=
  mkMiddleware (responding messages) "X-Request-ID" true
               (fixed "generated")
               (Some (fun uuid_ => lift (is_valid_uuid4 uuid_)))
               (Some (fun a => ret a))
               [recording_hook; (fun _ => raise boom); recording_hook].

End Demo.

(** *** Further concrete cases *)
Module Cases.

(** A validator that raises, and a transformer that returns the empty
    text. *)
Definition broken_validator_app (messages : list (Message unit))
  : CorrelationIdMiddleware Demo.Trace unit unit :=
  mkMiddleware (Demo.responding messages) "X-Request-ID" true
               (Demo.fixed "generated")
               (Some (fun _ => raise Demo.boom))
               (Some (fun a => ret a))
               [Demo.recording_hook].

Definition blanking_app (messages : list (Message unit))
  : CorrelationIdMiddleware Demo.Trace unit unit :=
  mkMiddleware (Demo.responding messages) "X-Request-ID" true
               (Demo.fixed "generated")
               None
               (Some (fun _ => ret ""))
               [Demo.recording_hook].

(** An environment whose Celery extension is installed but fails to
    import something itself. *)
Definition with_broken_celery : Environment Demo.Trace :=
  mkEnvironment
    (Some (Demo.emit (Demo.Hooked "celery") ;; raise (ImportError "celery")))
    (Some Demo.recording_hook).

(** An environment whose Celery extension loads, leaving a trace. *)
Definition with_celery : Environment Demo.Trace :=
  mkEnvironment (Some (Demo.emit (Demo.Hooked "celery"))) (Some Demo.recording_hook).

(** A handler that sets another ID before it answers. *)
Definition resetting (other : string) (messages : list (Message unit))
  : ASGIApp Demo.Trace unit unit :=
  fun scope _ send => correlation_id_set other ;; Demo.send_all send messages.

(** The middleware of the test suite with the doubling transformer,
    around any handler. *)
Definition doubling (inner : ASGIApp Demo.Trace unit unit)
  : CorrelationIdMiddleware Demo.Trace unit unit :=
  mkMiddleware inner "X-Request-ID" true
               (Demo.fixed "ffffffffffffffffffffffffffffffff")
               (Some (fun uuid_ => lift (is_valid_uuid4 uuid_)))
               (Some (fun a => ret (a ++ a)))
               [].

(** The message that starts a response, without a ['headers'] entry. *)
Definition start_without_headers : Message unit :=
  mkMessage "http.response.start" None tt.

(** A hook that leaves its tag and the ID in the trace. *)
Definition tagging (tag : string) : Hook Demo.Trace :=
  fun id_value => Demo.emit (Demo.Hooked (tag ++ id_value)).

(** A random source that counts. *)
Definition counting (n : nat) : M Demo.Trace (list Byte.byte) :=
  ret (List.map (fun k => match Byte.of_N (N.of_nat k) with
                          | Some b => b
                          | None => Byte.x00
                          end) (List.seq 0 n)).

End Cases.

(* ================================================================== *)
(** * Properties *)

(** ** The monad *)

Section MonadFacts.

Context {Ext : Type}.

Lemma bind_ok {A B : Type} (m : M Ext A) (f : A -> M Ext B) w a w' :
  m w = (Ok a, w') -> bind m f w = f a w'.
Proof. intros H. unfold bind. rewrite H. reflexivity. Qed.

Lemma bind_raise {A B : Type} (m : M Ext A) (f : A -> M Ext B) w e w' :
  m w = (Raise e, w') -> bind m f w = (Raise e, w').
Proof. intros H. unfold bind. rewrite H. reflexivity. Qed.

Lemma call_hooks_app (before after : list (Hook Ext)) id_value w w' :
  call_hooks before id_value w = (Ok tt, w') ->
  call_hooks (before ++ after) id_value w = call_hooks after id_value w'.
Proof.
  revert w. induction before as [|hook before IH]; intros w H; simpl in *.
  - unfold ret in H. inversion H. reflexivity.
  - unfold bind in *. destruct (hook id_value w) as [[[]|e] w1].
    + apply IH. exact H.
    + discriminate.
Qed.

Lemma call_hooks_keep_context (hs : list (Hook Ext)) (id_value : string) w r w' :
  Forall keeps_context hs ->
  call_hooks hs id_value w = (r, w') -> correlation_id w' = correlation_id w.
Proof.
  intros F. revert w. induction F as [|hook hs Hk F IH]; intros w H.
  - inversion H. reflexivity.
  - cbn [call_hooks] in H. unfold bind in H.
    destruct (hook id_value w) as [[[]|e] w1] eqn:E.
    + rewrite (IH w1 H). exact (Hk id_value w _ w1 E).
    + inversion H. subst. exact (Hk id_value w _ w' E).
Qed.

End MonadFacts.

(** ** [__call__] step by step *)

Section CallFacts.

Context {Ext Other Receive : Type}.
Implicit Types (self : CorrelationIdMiddleware Ext Other Receive)
               (scope : Scope Other) (receive : Receive) (send : Send Ext Other)
               (w : World Ext).

Lemma call_not_http self scope receive send :
  scope_type scope <> "http" ->
  call self scope receive send = app self scope receive send.
Proof.
  intros H. unfold call.
  destruct (String.eqb_spec (scope_type scope) "http") as [E|E]; [contradiction|].
  reflexivity.
Qed.

Lemma call_http self scope receive send :
  scope_type scope = "http" ->
  call self scope receive send =
    (id_value <- resolve_id self (inbound_value self scope) ;;
     id_value <- transform_id self id_value ;;
     correlation_id_set id_value ;;
     call_hooks (hooks self) id_value ;;
     app self (update_request_headers self scope (inbound_value self scope) id_value)
         receive (handle_outgoing_request self send)).
Proof.
  intros H. unfold call. rewrite H. reflexivity.
Qed.

Lemma call_http_ok self scope receive send w resolved w1 final w2 w3 :
  scope_type scope = "http" ->
  resolve_id self (inbound_value self scope) w = (Ok resolved, w1) ->
  transform_id self resolved w1 = (Ok final, w2) ->
  call_hooks (hooks self) final (published final w2) = (Ok tt, w3) ->
  call self scope receive send w =
    app self (update_request_headers self scope (inbound_value self scope) final)
        receive (handle_outgoing_request self send) w3.
Proof.
  intros H Hr Ht Hh. rewrite (call_http _ _ _ _ H).
  rewrite (bind_ok _ _ _ _ _ Hr), (bind_ok _ _ _ _ _ Ht).
  unfold bind at 1. cbn [correlation_id_set].
  fold (published final w2).
  rewrite (bind_ok _ _ _ _ _ Hh). reflexivity.
Qed.

Lemma call_resolve_raises self scope receive send w e w1 :
  scope_type scope = "http" ->
  resolve_id self (inbound_value self scope) w = (Raise e, w1) ->
  call self scope receive send w = (Raise e, w1).
Proof.
  intros H Hr. rewrite (call_http _ _ _ _ H).
  apply bind_raise. exact Hr.
Qed.

Lemma call_transform_raises self scope receive send w resolved w1 e w2 :
  scope_type scope = "http" ->
  resolve_id self (inbound_value self scope) w = (Ok resolved, w1) ->
  transform_id self resolved w1 = (Raise e, w2) ->
  call self scope receive send w = (Raise e, w2).
Proof.
  intros H Hr Ht. rewrite (call_http _ _ _ _ H).
  rewrite (bind_ok _ _ _ _ _ Hr). apply bind_raise. exact Ht.
Qed.

Lemma call_hooks_raise self scope receive send w resolved w1 final w2 e w3 :
  scope_type scope = "http" ->
  resolve_id self (inbound_value self scope) w = (Ok resolved, w1) ->
  transform_id self resolved w1 = (Ok final, w2) ->
  call_hooks (hooks self) final (published final w2) = (Raise e, w3) ->
  call self scope receive send w = (Raise e, w3).
Proof.
  intros H Hr Ht Hh. rewrite (call_http _ _ _ _ H).
  rewrite (bind_ok _ _ _ _ _ Hr), (bind_ok _ _ _ _ _ Ht).
  unfold bind at 1. cbn [correlation_id_set].
  fold (published final w2).
  apply bind_raise. exact Hh.
Qed.

Lemma truthy_some (v : option string) :
  truthy v = true -> exists c s, v = Some (String c s).
Proof.
  destruct v as [[|c s]|]; simpl; intros H; try discriminate.
  exists c, s. reflexivity.
Qed.

Lemma truthy_nonempty (found : string) :
  found <> "" -> truthy (Some found) = true.
Proof. destruct found; [contradiction|reflexivity]. Qed.

Lemma resolve_id_absent self (header_value : option string) :
  truthy header_value = false ->
  resolve_id self header_value = generator self.
Proof.
  destruct header_value as [[|c s]|]; simpl; intros H; try discriminate; reflexivity.
Qed.

Lemma resolve_id_no_validator self found :
  found <> "" -> validator self = None ->
  resolve_id self (Some found) = ret found.
Proof.
  intros Hne Hv. destruct found as [|c s]; [contradiction|].
  unfold resolve_id. rewrite Hv. reflexivity.
Qed.

Lemma resolve_id_accepted self found validate w w1 :
  found <> "" -> validator self = Some validate ->
  validate found w = (Ok true, w1) ->
  resolve_id self (Some found) w = (Ok found, w1).
Proof.
  intros Hne Hv Hok. destruct found as [|c s]; [contradiction|].
  unfold resolve_id. rewrite Hv.
  rewrite (bind_ok _ _ _ _ _ Hok). reflexivity.
Qed.

Lemma resolve_id_rejected self found validate w w1 generated w2 :
  found <> "" -> validator self = Some validate ->
  validate found w = (Ok false, w1) ->
  generator self w1 = (Ok generated, w2) ->
  resolve_id self (Some found) w = (Ok generated, warned found w2).
Proof.
  intros Hne Hv Hrej Hgen. destruct found as [|c s]; [contradiction|].
  unfold resolve_id. rewrite Hv.
  rewrite (bind_ok _ _ _ _ _ Hrej). cbn [negb].
  rewrite (bind_ok _ _ _ _ _ Hgen). reflexivity.
Qed.

Lemma resolve_id_rejected_raises self found validate w w1 e w2 :
  found <> "" -> validator self = Some validate ->
  validate found w = (Ok false, w1) ->
  generator self w1 = (Raise e, w2) ->
  resolve_id self (Some found) w = (Raise e, w2).
Proof.
  intros Hne Hv Hrej Hgen. destruct found as [|c s]; [contradiction|].
  unfold resolve_id. rewrite Hv.
  rewrite (bind_ok _ _ _ _ _ Hrej). cbn [negb].
  apply bind_raise. exact Hgen.
Qed.

Lemma failed_validation_message (rejected : string) :
  getMessage (mkLogRecord "WARNING" FAILED_VALIDATION_MESSAGE [rejected]) =
  Some ("Generated new request ID (" ++ rejected
        ++ "), since request header value failed validation").
Proof. reflexivity. Qed.

End CallFacts.

(** ** Header containers *)

Module StarletteFacts.
Import Starlette.
Local Open Scope list_scope.

Lemma lower_char_idempotent (c : ascii) :
  Py.lower_char (Py.lower_char c) = Py.lower_char c.
Proof.
  destruct c as [[] [] [] [] [] [] [] []]; vm_compute; reflexivity.
Qed.

Lemma lower_idempotent (s : string) : Py.lower (Py.lower s) = Py.lower s.
Proof.
  induction s as [|c s IH]; simpl; [reflexivity|].
  rewrite lower_char_idempotent, IH. reflexivity.
Qed.

Lemma firstn_prefix (p l : RawHeaders) : firstn (List.length p) (p ++ l) = p.
Proof. induction p as [|y p IH]; simpl; [reflexivity|]. rewrite IH. reflexivity. Qed.

Lemma skipn_past (p r : RawHeaders) x : skipn (S (List.length p)) (p ++ x :: r) = r.
Proof. induction p as [|y p IH]; simpl in *; [reflexivity|exact IH]. Qed.

Lemma del_index_middle (p r : RawHeaders) x :
  del_index (p ++ x :: r) (List.length p) = p ++ r.
Proof. unfold del_index. rewrite firstn_prefix, skipn_past. reflexivity. Qed.

Lemma set_index_middle (p r : RawHeaders) x y :
  set_index (p ++ x :: r) (List.length p) y = p ++ y :: r.
Proof. unfold set_index. rewrite firstn_prefix, skipn_past. reflexivity. Qed.

(** Deleting the found entries from the last to the first leaves the
    entries under other keys, in their order. *)
Lemma delete_found (l p : RawHeaders) (k : string) :
  fold_left del_index (rev (found_indexes_from (List.length p) l k)) (p ++ l)%list
  = (p ++ remove_key k l)%list.
Proof.
  revert p. induction l as [|[k' v'] l IH]; intros p; simpl.
  - reflexivity.
  - specialize (IH (p ++ [(k', v')])%list).
    rewrite List.length_app in IH. simpl in IH. rewrite Nat.add_1_r in IH.
    rewrite <- app_assoc in IH. simpl in IH.
    destruct (k' =? k) eqn:E; simpl.
    + rewrite fold_left_app. simpl. rewrite IH.
      rewrite <- app_assoc. simpl. apply del_index_middle.
    + rewrite IH. rewrite <- app_assoc. reflexivity.
Qed.

Lemma setitem_from (l p : RawHeaders) (k v : string) :
  match found_indexes_from (List.length p) l k with
  | idx :: _ =>
      set_index
        (fold_left del_index (rev (tl (found_indexes_from (List.length p) l k))) (p ++ l)%list)
        idx (k, v)
  | [] =>
      (fold_left del_index (rev (tl (found_indexes_from (List.length p) l k))) (p ++ l)
         ++ [(k, v)])%list
  end = (p ++ overwrite k v l)%list.
Proof.
  revert p. induction l as [|[k' v'] l IH]; intros p.
  - simpl. rewrite app_nil_r. reflexivity.
  - cbn [found_indexes_from overwrite].
    destruct (k' =? k) eqn:E.
    + cbn [tl].
      pose proof (delete_found l (p ++ [(k', v')])%list k) as D.
      rewrite List.length_app in D. simpl in D. rewrite Nat.add_1_r in D.
      rewrite <- !app_assoc in D. simpl in D.
      rewrite D. apply set_index_middle.
    + specialize (IH (p ++ [(k', v')])%list).
      rewrite List.length_app in IH. simpl in IH. rewrite Nat.add_1_r in IH.
      rewrite <- !app_assoc in IH. simpl in IH. exact IH.
Qed.

Lemma setitem_overwrite (l : RawHeaders) (key value : string) :
  setitem l key value = overwrite (Py.lower key) value l.
Proof. exact (setitem_from l [] (Py.lower key) value). Qed.

Lemma find_key_overwrite (l : RawHeaders) (k v : string) :
  find_key (overwrite k v l) k = Some v.
Proof.
  induction l as [|[k' v'] l IH]; simpl.
  - rewrite String.eqb_refl. reflexivity.
  - destruct (k' =? k) eqn:E; simpl.
    + rewrite String.eqb_refl. reflexivity.
    + rewrite E. exact IH.
Qed.

Lemma find_key_overwrite_other (l : RawHeaders) (k v k0 : string) :
  k0 <> k -> find_key (overwrite k v l) k0 = find_key l k0.
Proof.
  intros Hne. induction l as [|[k' v'] l IH]; simpl.
  - destruct (String.eqb_spec k k0); [congruence|reflexivity].
  - destruct (String.eqb_spec k' k) as [->|N]; simpl.
    + destruct (String.eqb_spec k k0); [congruence|].
      clear IH. induction l as [|[k2 v2] l IH]; simpl; [reflexivity|].
      destruct (String.eqb_spec k2 k) as [->|N2]; simpl.
      * destruct (String.eqb_spec k k0); [congruence|]. exact IH.
      * destruct (k2 =? k0); [reflexivity|exact IH].
    + destruct (k' =? k0); [reflexivity|exact IH].
Qed.

Lemma remove_key_idempotent (l : RawHeaders) (k : string) :
  remove_key k (remove_key k l) = remove_key k l.
Proof.
  unfold remove_key. induction l as [|[k' v'] l IH]; simpl; [reflexivity|].
  destruct (k' =? k) eqn:E; simpl; [exact IH|].
  rewrite E. simpl. rewrite IH. reflexivity.
Qed.

(** The entries under other keys are those of the list, in their order. *)
Lemma remove_key_overwrite (l : RawHeaders) (k v : string) :
  remove_key k (overwrite k v l) = remove_key k l.
Proof.
  induction l as [|[k' v'] l IH]; simpl.
  - rewrite String.eqb_refl. reflexivity.
  - destruct (k' =? k) eqn:E; simpl.
    + rewrite String.eqb_refl. simpl. apply remove_key_idempotent.
    + rewrite E. simpl. rewrite IH. reflexivity.
Qed.

Lemma keep_key_removed (l : RawHeaders) (k : string) :
  filter (fun kv => fst kv =? k) (remove_key k l) = [].
Proof.
  unfold remove_key. induction l as [|[k' v'] l IH]; simpl; [reflexivity|].
  destruct (k' =? k) eqn:E; simpl; [exact IH|].
  rewrite E. exact IH.
Qed.

(** Exactly one entry is left under the key. *)
Lemma keep_key_overwrite (l : RawHeaders) (k v : string) :
  filter (fun kv => fst kv =? k) (overwrite k v l) = [(k, v)].
Proof.
  induction l as [|[k' v'] l IH]; simpl.
  - rewrite String.eqb_refl. reflexivity.
  - destruct (k' =? k) eqn:E; simpl.
    + rewrite String.eqb_refl. rewrite keep_key_removed. reflexivity.
    + rewrite E. exact IH.
Qed.

Lemma get_setitem (l : RawHeaders) (key value : string) :
  get (setitem l key value) (Py.lower key) = Some value.
Proof.
  unfold get, getitem. rewrite lower_idempotent, setitem_overwrite.
  rewrite find_key_overwrite. reflexivity.
Qed.

End StarletteFacts.

(** ** The request path *)

Section RequestPath.

Context {Ext Other Receive : Type}.
Implicit Types (self : CorrelationIdMiddleware Ext Other Receive)
               (scope : Scope Other) (receive : Receive) (send : Send Ext Other)
               (message : Message Other) (w s : World Ext).

Lemma differs_true (a : string) (b : option string) :
  differs a b = true <-> Some a <> b.
Proof.
  destruct b as [b|]; simpl.
  - destruct (String.eqb_spec a b) as [->|N]; simpl; split; intros H;
      try congruence; try reflexivity.
  - split; [discriminate|reflexivity].
Qed.

Lemma handle_outgoing_start self send message w (cid : string)
    (headers : Starlette.RawHeaders) :
  message_type message = "http.response.start" ->
  correlation_id w = Some cid -> cid <> "" ->
  message_headers message = Some headers ->
  handle_outgoing_request self send message w =
  send (mkMessage (message_type message)
          (Some (headers ++ [(Py.lower (header_name self), cid)])%list)
          (message_other message)) w.
Proof.
  intros Ht Hc Hne Hh. unfold handle_outgoing_request, outgoing_message.
  assert (E : (message_type message =? "http.response.start") = true)
    by (rewrite Ht; reflexivity).
  rewrite E. unfold bind, correlation_id_get. rewrite Hc, Hh.
  destruct cid as [|c cid]; [contradiction|]. reflexivity.
Qed.

Lemma handle_outgoing_no_headers self send message w (cid : string) :
  message_type message = "http.response.start" ->
  correlation_id w = Some cid -> cid <> "" ->
  message_headers message = None ->
  handle_outgoing_request self send message w = (Raise (KeyError "headers"), w).
Proof.
  intros Ht Hc Hne Hh. unfold handle_outgoing_request, outgoing_message.
  assert (E : (message_type message =? "http.response.start") = true)
    by (rewrite Ht; reflexivity).
  rewrite E. unfold bind, correlation_id_get. rewrite Hc, Hh.
  destruct cid as [|c cid]; [contradiction|]. reflexivity.
Qed.


Lemma handle_outgoing_no_id self send message w :
  (correlation_id w = None \/ correlation_id w = Some "") ->
  handle_outgoing_request self send message w = send message w.
Proof.
  intros Hc. unfold handle_outgoing_request, outgoing_message.
  destruct (message_type message =? "http.response.start"); [|reflexivity].
  unfold bind, correlation_id_get. destruct Hc as [-> | ->]; reflexivity.
Qed.

(** The final ID reaches the response of a handler that answers before
    anyone has set the context anew. *)
Lemma echo_through_handler self scope receive send w resolved w1 final w2 w3 :
  scope_type scope = "http" ->
  resolve_id self (inbound_value self scope) w = (Ok resolved, w1) ->
  transform_id self resolved w1 = (Ok final, w2) ->
  Forall keeps_context (hooks self) ->
  call_hooks (hooks self) final (published final w2) = (Ok tt, w3) ->
  final <> "" ->
  call self scope receive send w
  = app self (update_request_headers self scope (inbound_value self scope) final)
        receive (handle_outgoing_request self send) w3
  /\ correlation_id w3 = Some final
  /\ forall (pre : M Ext unit) message (headers : Starlette.RawHeaders)
            (rest : Send Ext Other -> M Ext unit),
       keeps_context (fun _ : unit => pre) ->
       message_type message = "http.response.start" ->
       message_headers message = Some headers ->
       (forall snd w0,
           app self (update_request_headers self scope (inbound_value self scope) final)
               receive snd w0
           = (pre ;; snd message ;; rest snd) w0) ->
       call self scope receive send w
       = (pre ;;
          send (mkMessage (message_type message)
                  (Some (headers ++ [(Py.lower (header_name self), final)])%list)
                  (message_other message)) ;;
          rest (handle_outgoing_request self send)) w3.
Proof.
  intros Hhttp Hres Htr Hk Hhooks Hne.
  assert (E : call self scope receive send w
              = app self (update_request_headers self scope (inbound_value self scope) final)
                    receive (handle_outgoing_request self send) w3)
    by (apply (call_http_ok self scope receive send w resolved w1 final w2 w3); assumption).
  assert (C : correlation_id w3 = Some final)
    by (rewrite (call_hooks_keep_context _ _ _ _ _ Hk Hhooks); reflexivity).
  split; [exact E|]. split; [exact C|].
  intros pre message headers rest Hpre Ht Hh Hshape.
  rewrite E, Hshape. unfold bind at 1 3.
  destruct (pre w3) as [[[]|e] w4] eqn:P; [|reflexivity].
  assert (C4 : correlation_id w4 = Some final)
    by (rewrite (Hpre tt w3 _ w4 P); exact C).
  unfold bind at 1 2.
  rewrite (handle_outgoing_start self send message w4 final headers Ht C4 Hne Hh).
  reflexivity.
Qed.

(** C7. A scope whose type is not 'http' goes to the inner handler as it
    is, with the original [receive] and [send]: the whole computation of
    the middleware is that of the handler, so nothing is generated,
    validated, logged, published, hooked or written into any header by the
    middleware. *)
Theorem non_http_bypass self scope receive send :
  scope_type scope <> "http" ->
  call self scope receive send = app self scope receive send.
Proof. apply call_not_http. Qed.

(** C2. The resolved ID of an HTTP request.  Where the lookup of the
    configured header in the scope finds nothing, or the empty text, the
    request is the generator and then the rest of [__call__] on what it
    returned, nothing being logged in between.  Where it finds a
    non-empty value that the configured validator rejects, the rest runs
    on the generated ID, in the world the generator left with one WARNING
    record more, made of the fixed template and the rejected value.
    Otherwise, without validator or with an accepting one, the rest runs
    on the value found. *)
Theorem resolved_id_of_request self scope receive send :
  scope_type scope = "http" ->
  ((Starlette.get (scope_headers scope) (Py.lower (header_name self)) = None
    \/ Starlette.get (scope_headers scope) (Py.lower (header_name self)) = Some "") ->
     call self scope receive send
     = (generated <- generator self ;;
        after_resolution self scope receive send generated))
  /\ (forall found validate w w1 generated w2,
        Starlette.get (scope_headers scope) (Py.lower (header_name self)) = Some found ->
        found <> "" ->
        validator self = Some validate ->
        validate found w = (Ok false, w1) ->
        generator self w1 = (Ok generated, w2) ->
        exists w3,
          call self scope receive send w
          = after_resolution self scope receive send generated w3
          /\ correlation_id w3 = correlation_id w2 /\ ext w3 = ext w2
          /\ records w3 =
               (records w2 ++ [mkLogRecord "WARNING" FAILED_VALIDATION_MESSAGE [found]])%list
          /\ getMessage (mkLogRecord "WARNING" FAILED_VALIDATION_MESSAGE [found]) =
               Some ("Generated new request ID (" ++ found
                     ++ "), since request header value failed validation"))
  /\ (forall found,
        Starlette.get (scope_headers scope) (Py.lower (header_name self)) = Some found ->
        found <> "" ->
        (validator self = None ->
           call self scope receive send
           = after_resolution self scope receive send found)
        /\ (forall validate w w1,
              validator self = Some validate ->
              validate found w = (Ok true, w1) ->
              call self scope receive send w
              = after_resolution self scope receive send found w1)).
Proof.
  intros Hhttp.
  assert (E : call self scope receive send
              = (resolved <- resolve_id self (inbound_value self scope) ;;
                 after_resolution self scope receive send resolved))
    by (apply call_http; exact Hhttp).
  unfold inbound_value in E.
  split; [|split].
  - intros H. rewrite E. destruct H as [H|H]; rewrite H; reflexivity.
  - intros found validate w w1 generated w2 Hf Hne Hv Hrej Hgen.
    exists (warned found w2). split; [|repeat split].
    rewrite E, Hf.
    rewrite (bind_ok _ _ _ _ _
               (resolve_id_rejected self found validate w w1 generated w2 Hne Hv Hrej Hgen)).
    reflexivity.
  - intros found Hf Hne. split.
    + intros Hv. rewrite E, Hf, (resolve_id_no_validator self found Hne Hv). reflexivity.
    + intros validate w w1 Hv Hok. rewrite E, Hf.
      rewrite (bind_ok _ _ _ _ _ (resolve_id_accepted self found validate w w1 Hne Hv Hok)).
      reflexivity.
Qed.

(** C5, as the code has it.  With a transformer configured, the ID that
    is published, handed to the hooks, compared with the inbound value
    and written into the request is the transformer applied to the
    resolved ID, whichever way the ID was resolved.  With the transformer
    that doubles its argument and hooks that leave the context alone, an
    accepted inbound [cid] is in the context as [cid ++ cid] when the
    inner handler starts; a message that starts the response and carries
    headers gets [cid ++ cid] as header value while the context holds
    it, and so does the response of every handler that sends that
    message before anyone has set the context anew. *)
Theorem transformer_applied_on_every_path self transform scope receive send :
  transformer self = Some transform ->
  scope_type scope = "http" ->
  call self scope receive send =
    (resolved <- resolve_id self (inbound_value self scope) ;;
     final <- transform resolved ;;
     correlation_id_set final ;;
     call_hooks (hooks self) final ;;
     app self (update_request_headers self scope (inbound_value self scope) final)
         receive (handle_outgoing_request self send))
  /\ (forall cid w w1 w3,
        transform = (fun x => ret (x ++ x)) ->
        inbound_value self scope = Some cid -> cid <> "" ->
        resolve_id self (Some cid) w = (Ok cid, w1) ->
        Forall keeps_context (hooks self) ->
        call_hooks (hooks self) (cid ++ cid) (published (cid ++ cid) w1) = (Ok tt, w3) ->
        call self scope receive send w =
          app self (update_request_headers self scope (Some cid) (cid ++ cid))
              receive (handle_outgoing_request self send) w3
        /\ correlation_id w3 = Some (cid ++ cid)
        /\ (forall message (headers : Starlette.RawHeaders) s,
              message_type message = "http.response.start" ->
              message_headers message = Some headers ->
              correlation_id s = Some (cid ++ cid) ->
              handle_outgoing_request self send message s =
              send (mkMessage (message_type message)
                      (Some (headers
                               ++ [(Py.lower (header_name self), (cid ++ cid)%string)])%list)
                      (message_other message)) s)
        /\ (forall (pre : M Ext unit) message (headers : Starlette.RawHeaders)
                   (rest : Send Ext Other -> M Ext unit),
              keeps_context (fun _ : unit => pre) ->
              message_type message = "http.response.start" ->
              message_headers message = Some headers ->
              (forall snd w0,
                  app self (update_request_headers self scope (Some cid) (cid ++ cid))
                      receive snd w0
                  = (pre ;; snd message ;; rest snd) w0) ->
              call self scope receive send w
              = (pre ;;
                 send (mkMessage (message_type message)
                         (Some (headers
                                  ++ [(Py.lower (header_name self),
                                       (cid ++ cid)%string)])%list)
                         (message_other message)) ;;
                 rest (handle_outgoing_request self send)) w3)).
Proof.
  intros Ht Hhttp. split.
  - rewrite (call_http _ _ _ _ Hhttp). unfold transform_id. rewrite Ht. reflexivity.
  - intros cid w w1 w3 -> Hin Hne Hres Hk Hhooks.
    assert (N : (cid ++ cid)%string <> "") by (destruct cid; [contradiction|discriminate]).
    rewrite <- Hin in Hres.
    destruct (echo_through_handler self scope receive send w cid w1 (cid ++ cid) w1 w3
                Hhttp Hres ltac:(unfold transform_id; rewrite Ht; reflexivity)
                Hk Hhooks N) as [E [C H]].
    rewrite Hin in E, H.
    split; [exact E|]. split; [exact C|]. split.
    + intros message headers s Hm Hh Hs.
      apply handle_outgoing_start; assumption.
    + exact H.
Qed.

(** C6. Before the inner handler runs, the header list of the scope is
    written at the configured name, with one entry holding the final ID,
    when the final ID differs from the inbound value and
    [update_request_header] is set; in every other case the scope reaches
    the handler as it came. *)
Theorem request_header_reconciliation self scope receive send w resolved w1 final w2 w3 :
  scope_type scope = "http" ->
  resolve_id self (inbound_value self scope) w = (Ok resolved, w1) ->
  transform_id self resolved w1 = (Ok final, w2) ->
  call_hooks (hooks self) final (published final w2) = (Ok tt, w3) ->
  exists scope',
    call self scope receive send w =
      app self scope' receive (handle_outgoing_request self send) w3
    /\ scope_type scope' = scope_type scope
    /\ scope_other scope' = scope_other scope
    /\ ((Some final <> inbound_value self scope /\ update_request_header self = true) ->
          scope_headers scope' =
            Starlette.setitem (scope_headers scope) (header_name self) final
          /\ inbound_value self scope' = Some final
          /\ filter (fun kv => fst kv =? Py.lower (header_name self)) (scope_headers scope')
             = [(Py.lower (header_name self), final)]
          /\ Starlette.remove_key (Py.lower (header_name self)) (scope_headers scope')
             = Starlette.remove_key (Py.lower (header_name self)) (scope_headers scope))
    /\ (~ (Some final <> inbound_value self scope /\ update_request_header self = true) ->
          scope' = scope).
Proof.
  intros Hhttp Hres Htr Hhooks.
  exists (update_request_headers self scope (inbound_value self scope) final).
  split; [apply (call_http_ok self scope receive send w resolved w1 final w2 w3);
          assumption|].
  unfold update_request_headers.
  destruct (differs final (inbound_value self scope)) eqn:D;
    destruct (update_request_header self) eqn:U; simpl.
  - split; [reflexivity|]. split; [reflexivity|]. split.
    + intros _. split; [reflexivity|]. split; [|split].
      * unfold inbound_value at 1. simpl. apply StarletteFacts.get_setitem.
      * rewrite StarletteFacts.setitem_overwrite. apply StarletteFacts.keep_key_overwrite.
      * rewrite StarletteFacts.setitem_overwrite. apply StarletteFacts.remove_key_overwrite.
    + intros N. contradiction N. split; [apply differs_true; exact D|reflexivity].
  - split; [reflexivity|]. split; [reflexivity|]. split.
    + intros [_ F]. discriminate F.
    + reflexivity.
  - split; [reflexivity|]. split; [reflexivity|]. split.
    + intros [F _]. apply differs_true in F. congruence.
    + reflexivity.
  - split; [reflexivity|]. split; [reflexivity|]. split.
    + intros [_ F]. discriminate F.
    + reflexivity.
Qed.

(** C9. An exception of the generator, of the transformer or of a hook
    is the outcome of the request, in the world the raising callable left,
    whatever the inner handler is: the handler is not entered.  A value
    that only fails validation raises nothing: with a generator,
    transformer and hooks that return, the request goes on into the inner
    handler with the generated ID. *)
Theorem failures_propagate self scope receive send w :
  scope_type scope = "http" ->
  (forall e w1,
      (inbound_value self scope = None \/ inbound_value self scope = Some "") ->
      generator self w = (Raise e, w1) ->
      forall inner, call (with_app self inner) scope receive send w = (Raise e, w1))
  /\ (forall found validate w1 e w2,
        inbound_value self scope = Some found -> found <> "" ->
        validator self = Some validate ->
        validate found w = (Ok false, w1) ->
        generator self w1 = (Raise e, w2) ->
        forall inner, call (with_app self inner) scope receive send w = (Raise e, w2))
  /\ (forall transform resolved w1 e w2,
        transformer self = Some transform ->
        resolve_id self (inbound_value self scope) w = (Ok resolved, w1) ->
        transform resolved w1 = (Raise e, w2) ->
        forall inner, call (with_app self inner) scope receive send w = (Raise e, w2))
  /\ (forall resolved w1 final w2 before hook after w3 e w4,
        resolve_id self (inbound_value self scope) w = (Ok resolved, w1) ->
        transform_id self resolved w1 = (Ok final, w2) ->
        hooks self = (before ++ hook :: after)%list ->
        call_hooks before final (published final w2) = (Ok tt, w3) ->
        hook final w3 = (Raise e, w4) ->
        forall inner, call (with_app self inner) scope receive send w = (Raise e, w4))
  /\ (forall found validate w1 generated w2 final w3 w4,
        inbound_value self scope = Some found -> found <> "" ->
        validator self = Some validate ->
        validate found w = (Ok false, w1) ->
        generator self w1 = (Ok generated, w2) ->
        transform_id self generated (warned found w2) = (Ok final, w3) ->
        call_hooks (hooks self) final (published final w3) = (Ok tt, w4) ->
        call self scope receive send w =
          app self (update_request_headers self scope (Some found) final)
              receive (handle_outgoing_request self send) w4).
Proof.
  intros Hhttp. split; [|split; [|split; [|split]]].
  - intros e w1 Habs Hgen inner.
    apply call_resolve_raises; [exact Hhttp|].
    change (inbound_value (with_app self inner) scope) with (inbound_value self scope).
    destruct Habs as [-> | ->]; exact Hgen.
  - intros found validate w1 e w2 Hin Hne Hv Hrej Hgen inner.
    apply call_resolve_raises; [exact Hhttp|].
    change (inbound_value (with_app self inner) scope) with (inbound_value self scope).
    rewrite Hin.
    apply (resolve_id_rejected_raises (with_app self inner) found validate w w1 e w2);
      assumption.
  - intros transform resolved w1 e w2 Ht Hres Htr inner.
    apply (call_transform_raises (with_app self inner) scope receive send w resolved w1 e w2);
      [exact Hhttp|exact Hres|].
    unfold transform_id. simpl. rewrite Ht. exact Htr.
  - intros resolved w1 final w2 before hook after w3 e w4 Hres Htr Hh Hb Hr inner.
    apply (call_hooks_raise (with_app self inner) scope receive send w resolved w1 final w2 e w4);
      [exact Hhttp|exact Hres|exact Htr|].
    simpl. rewrite Hh. rewrite (call_hooks_app before (hook :: after) final _ w3 Hb).
    simpl. apply bind_raise. exact Hr.
  - intros found validate w1 generated w2 final w3 w4 Hin Hne Hv Hrej Hgen Htr Hhooks.
    rewrite <- Hin.
    apply (call_http_ok self scope receive send w generated (warned found w2) final w3 w4);
      try assumption.
    rewrite Hin.
    apply (resolve_id_rejected self found validate w w1 generated w2); assumption.
Qed.

End RequestPath.

(** ** The request path on concrete requests *)

(** A websocket scope through the default middleware. *)
Lemma non_http_bypass_witness :
  scope_type Demo.websocket <> "http"
  /\ call (Demo.default_app [Demo.body]) Demo.websocket tt Demo.wire
     = app (Demo.default_app [Demo.body]) Demo.websocket tt Demo.wire
  /\ call (Demo.default_app [Demo.body]) Demo.websocket tt Demo.wire Demo.idle
     = (Ok tt, mkWorld None [] [Demo.Handled Demo.websocket; Demo.Sent Demo.body]).
Proof.
  assert (H : call (Demo.default_app [Demo.body]) Demo.websocket tt Demo.wire
              = app (Demo.default_app [Demo.body]) Demo.websocket tt Demo.wire).
  { apply (non_http_bypass (Demo.default_app [Demo.body]) Demo.websocket tt Demo.wire).
    discriminate. }
  split; [discriminate|]. split; [exact H|]. rewrite H. reflexivity.
Defined.

(** The three rules on requests without the header, with "bad-uuid"
    with and without validator, and with a valid ID. *)
Lemma resolved_id_of_request_witness :
  call (Demo.generator_app []) (Demo.request [("accept", "*/*")]) tt Demo.wire
  = (generated <- generator (Demo.generator_app []) ;;
     after_resolution (Demo.generator_app []) (Demo.request [("accept", "*/*")]) tt
       Demo.wire generated)
  /\ (exists w3,
        call (Demo.generator_app []) (Demo.request [("x-request-id", "bad-uuid")]) tt
             Demo.wire Demo.idle
        = after_resolution (Demo.generator_app [])
            (Demo.request [("x-request-id", "bad-uuid")]) tt Demo.wire "generated" w3
        /\ records w3 = [mkLogRecord "WARNING" FAILED_VALIDATION_MESSAGE ["bad-uuid"]])
  /\ call (Demo.no_validator_or_transformer_app [])
          (Demo.request [("x-request-id", "bad-uuid")]) tt Demo.wire
     = after_resolution (Demo.no_validator_or_transformer_app [])
         (Demo.request [("x-request-id", "bad-uuid")]) tt Demo.wire "bad-uuid"
  /\ call (Demo.generator_app []) (Demo.request [("x-request-id", Demo.cid)]) tt
          Demo.wire Demo.idle
     = after_resolution (Demo.generator_app [])
         (Demo.request [("x-request-id", Demo.cid)]) tt Demo.wire Demo.cid Demo.idle.
Proof.
  split; [|split; [|split]].
  - apply (proj1 (resolved_id_of_request (Demo.generator_app [])
                    (Demo.request [("accept", "*/*")]) tt Demo.wire eq_refl)).
    left. reflexivity.
  - destruct (proj1 (proj2 (resolved_id_of_request (Demo.generator_app [])
                              (Demo.request [("x-request-id", "bad-uuid")]) tt Demo.wire
                              eq_refl))
                "bad-uuid" (fun uuid_ => lift (is_valid_uuid4 uuid_))
                Demo.idle Demo.idle "generated"
                (mkWorld None [] [Demo.Generated "generated"]))
      as [w3 [H1 [_ [_ [H2 _]]]]];
      [reflexivity|discriminate|reflexivity|reflexivity|reflexivity|].
    exists w3. split; [exact H1|exact H2].
  - apply (proj2 (proj2 (resolved_id_of_request (Demo.no_validator_or_transformer_app [])
                           (Demo.request [("x-request-id", "bad-uuid")]) tt Demo.wire
                           eq_refl)) "bad-uuid");
      [reflexivity|discriminate|reflexivity].
  - apply (proj2 (proj2 (proj2 (resolved_id_of_request (Demo.generator_app [])
                                  (Demo.request [("x-request-id", Demo.cid)]) tt Demo.wire
                                  eq_refl))
                   Demo.cid eq_refl ltac:(discriminate))
             (fun uuid_ => lift (is_valid_uuid4 uuid_)) Demo.idle Demo.idle);
      reflexivity.
Defined.

(** The doubling transformer of the test suite on a valid inbound ID. *)
Lemma transformer_applied_on_every_path_witness :
  call (Demo.transformer_app [Demo.start []])
       (Demo.request [("x-request-id", Demo.cid)]) tt Demo.wire Demo.idle
  = (Ok tt,
     mkWorld (Some (Demo.cid ++ Demo.cid)) []
       [Demo.Handled (Demo.request [("x-request-id", Demo.cid ++ Demo.cid)]);
        Demo.Sent (Demo.start [("x-request-id", Demo.cid ++ Demo.cid)])]).
Proof.
  destruct (transformer_applied_on_every_path (Demo.transformer_app [Demo.start []])
              (fun a => ret (a ++ a))
              (Demo.request [("x-request-id", Demo.cid)]) tt Demo.wire
              eq_refl eq_refl) as [_ H].
  destruct (H Demo.cid Demo.idle Demo.idle (published (Demo.cid ++ Demo.cid) Demo.idle)
              eq_refl eq_refl ltac:(discriminate) eq_refl (Forall_nil _) eq_refl)
    as [_ [_ [_ H4]]].
  rewrite (H4 (Demo.emit (Demo.Handled
                            (Demo.request [("x-request-id", Demo.cid ++ Demo.cid)])))
              (Demo.start []) [] (fun _ => ret tt)).
  - reflexivity.
  - intros a w r w' E. inversion E. reflexivity.
  - reflexivity.
  - reflexivity.
  - intros snd w0. reflexivity.
Defined.

(** C5, as the specification has it, fails: behind the doubling
    transformer, a handler that sets the context to another ID before it
    answers gets that ID as header value, not the doubled inbound one. *)
Lemma doubled_id_lost_after_reset :
  ~ (forall (inner : ASGIApp Demo.Trace unit unit) (w' : World Demo.Trace)
            (forwarded : Message unit),
        call (Cases.doubling inner) (Demo.request [("x-request-id", Demo.cid)]) tt
             Demo.wire Demo.idle = (Ok tt, w') ->
        In (Demo.Sent forwarded) (ext w') ->
        message_type forwarded = "http.response.start" ->
        response_header forwarded "X-Request-ID" = Some (Demo.cid ++ Demo.cid)).
Proof.
  intros H.
  specialize (H (Cases.resetting "other" [Demo.start []])
                (mkWorld (Some "other") []
                   [Demo.Sent (Demo.start [("x-request-id", "other")])])
                (Demo.start [("x-request-id", "other")])
                eq_refl (or_introl eq_refl) eq_refl).
  discriminate H.
Qed.

(** A rejected value sent twice: one entry with the generated ID is left,
    at the place of the first, and the other headers stay. *)
Lemma request_header_reconciliation_witness :
  exists scope',
    call (Demo.generator_app [])
         (Demo.request [("x-request-id", "bad-uuid"); ("accept", "*/*");
                        ("x-request-id", "again")])
         tt Demo.wire Demo.idle
    = app (Demo.generator_app []) scope' tt
          (handle_outgoing_request (Demo.generator_app []) Demo.wire)
          (mkWorld (Some "generated")
             [mkLogRecord "WARNING" FAILED_VALIDATION_MESSAGE ["bad-uuid"]]
             [Demo.Generated "generated"; Demo.Hooked "generated"])
    /\ scope_headers scope' = [("x-request-id", "generated"); ("accept", "*/*")].
Proof.
  destruct (request_header_reconciliation (Demo.generator_app [])
              (Demo.request [("x-request-id", "bad-uuid"); ("accept", "*/*");
                             ("x-request-id", "again")])
              tt Demo.wire Demo.idle
              "generated"
              (mkWorld None [mkLogRecord "WARNING" FAILED_VALIDATION_MESSAGE ["bad-uuid"]]
                 [Demo.Generated "generated"])
              "generated"
              (mkWorld None [mkLogRecord "WARNING" FAILED_VALIDATION_MESSAGE ["bad-uuid"]]
                 [Demo.Generated "generated"])
              (mkWorld (Some "generated")
                 [mkLogRecord "WARNING" FAILED_VALIDATION_MESSAGE ["bad-uuid"]]
                 [Demo.Generated "generated"; Demo.Hooked "generated"])
              eq_refl eq_refl eq_refl eq_refl)
    as [scope' [H1 [_ [_ [H2 _]]]]].
  exists scope'. split; [exact H1|].
  destruct H2 as [H2 _]; [split; [discriminate|reflexivity]|].
  rewrite H2. reflexivity.
Defined.

(** A raising generator (header missing, header rejected), a raising
    transformer, a raising second hook, and a rejected value recovered. *)
Lemma failures_propagate_witness :
  (forall inner,
      call (with_app (Demo.broken_generator_app []) inner) (Demo.request []) tt
           Demo.wire Demo.idle
      = (Raise Demo.boom, Demo.idle))
  /\ (forall inner,
        call (with_app (Demo.broken_generator_app []) inner)
             (Demo.request [("x-request-id", "bad-uuid")]) tt Demo.wire Demo.idle
        = (Raise Demo.boom, Demo.idle))
  /\ (forall inner,
        call (with_app (Demo.broken_transformer_app []) inner)
             (Demo.request [("x-request-id", Demo.cid)]) tt Demo.wire Demo.idle
        = (Raise Demo.boom, Demo.idle))
  /\ (forall inner,
        call (with_app (Demo.broken_hook_app []) inner)
             (Demo.request [("x-request-id", Demo.cid)]) tt Demo.wire Demo.idle
        = (Raise Demo.boom,
           mkWorld (Some Demo.cid) [] [Demo.Hooked Demo.cid]))
  /\ call (Demo.generator_app [Demo.start []])
          (Demo.request [("x-request-id", "bad-uuid")]) tt Demo.wire Demo.idle
     = (Ok tt,
        mkWorld (Some "generated")
          [mkLogRecord "WARNING" FAILED_VALIDATION_MESSAGE ["bad-uuid"]]
          [Demo.Generated "generated"; Demo.Hooked "generated";
           Demo.Handled (Demo.request [("x-request-id", "generated")]);
           Demo.Sent (Demo.start [("x-request-id", "generated")])]).
Proof.
  split; [|split; [|split; [|split]]].
  - apply (proj1 (failures_propagate (Demo.broken_generator_app []) (Demo.request [])
                    tt Demo.wire Demo.idle eq_refl)).
    + left. reflexivity.
    + reflexivity.
  - apply (proj1 (proj2 (failures_propagate (Demo.broken_generator_app [])
                           (Demo.request [("x-request-id", "bad-uuid")])
                           tt Demo.wire Demo.idle eq_refl))
             "bad-uuid" (fun uuid_ => lift (is_valid_uuid4 uuid_)) Demo.idle);
      [reflexivity|discriminate|reflexivity|reflexivity|reflexivity].
  - apply (proj1 (proj2 (proj2 (failures_propagate (Demo.broken_transformer_app [])
                                  (Demo.request [("x-request-id", Demo.cid)])
                                  tt Demo.wire Demo.idle eq_refl)))
             (fun _ => raise Demo.boom) Demo.cid Demo.idle);
      reflexivity.
  - apply (proj1 (proj2 (proj2 (proj2 (failures_propagate (Demo.broken_hook_app [])
                                         (Demo.request [("x-request-id", Demo.cid)])
                                         tt Demo.wire Demo.idle eq_refl))))
             Demo.cid Demo.idle Demo.cid Demo.idle
             [Demo.recording_hook] (fun _ => raise Demo.boom) [Demo.recording_hook]
             (mkWorld (Some Demo.cid) [] [Demo.Hooked Demo.cid]));
      reflexivity.
  - rewrite (proj2 (proj2 (proj2 (proj2 (failures_propagate
                 (Demo.generator_app [Demo.start []])
                 (Demo.request [("x-request-id", "bad-uuid")])
                 tt Demo.wire Demo.idle eq_refl))))
               "bad-uuid" (fun uuid_ => lift (is_valid_uuid4 uuid_)) Demo.idle
               "generated" (mkWorld None [] [Demo.Generated "generated"])
               "generated"
               (mkWorld None [mkLogRecord "WARNING" FAILED_VALIDATION_MESSAGE ["bad-uuid"]]
                  [Demo.Generated "generated"])
               (mkWorld (Some "generated")
                  [mkLogRecord "WARNING" FAILED_VALIDATION_MESSAGE ["bad-uuid"]]
                  [Demo.Generated "generated"; Demo.Hooked "generated"])
               eq_refl ltac:(discriminate) eq_refl eq_refl eq_refl eq_refl eq_refl).
    reflexivity.
Defined.

(** C8 on the code.  A handler that starts its response with a message
    without a ['headers'] entry, which ASGI allows, and then sends the
    body: on its own it gets both messages out; behind the default
    middleware, with the ID of the request in the context, the wrapper
    raises [KeyError] on the first, no header is added and nothing at
    all reaches the outer [send]. *)
Theorem start_without_headers_not_forwarded :
  Demo.responding [Cases.start_without_headers; Demo.body]
    (Demo.request [("x-request-id", Demo.cid)]) tt Demo.wire Demo.idle
  = (Ok tt,
     mkWorld None []
       [Demo.Handled (Demo.request [("x-request-id", Demo.cid)]);
        Demo.Sent Cases.start_without_headers;
        Demo.Sent Demo.body])
  /\ call (Demo.default_app [Cases.start_without_headers; Demo.body])
          (Demo.request [("x-request-id", Demo.cid)]) tt Demo.wire Demo.idle
     = (Raise (KeyError "headers"),
        mkWorld (Some Demo.cid) []
          [Demo.Handled (Demo.request [("x-request-id", Demo.cid)])]).
Proof. split; reflexivity. Qed.

(** ** Texts of hexadecimal digits *)

Module PyFacts.
Import Py.

(** What the tests of the parser say about a hexadecimal digit. *)
Lemma hex_char (c : ascii) :
  is_hex c = true ->
  Ascii.eqb c "u" = false /\ Ascii.eqb c "-" = false /\ mem_char c "{}" = false
  /\ is_underscore c = false /\ is_ascii c = true /\ c_isspace c = false
  /\ Ascii.eqb c "+" = false /\ Ascii.eqb c "x" = false /\ Ascii.eqb c "X" = false
  /\ exists d, hex_digit c = Some d /\ (0 <= d < 16)%Z.
Proof.
  destruct c as [[] [] [] [] [] [] [] []]; vm_compute; intros H;
    try discriminate H;
    repeat (split; [reflexivity|]);
    eexists; (split; [reflexivity|split; [discriminate|reflexivity]]).
Qed.

Lemma lower_hex_is_hex (c : ascii) : is_lower_hex c = true -> is_hex c = true.
Proof.
  destruct c as [[] [] [] [] [] [] [] []]; vm_compute; intros H;
    try discriminate H; reflexivity.
Qed.

Lemma all_chars_impl (p q : ascii -> bool) (s : string) :
  (forall c, p c = true -> q c = true) ->
  all_chars p s = true -> all_chars q s = true.
Proof.
  intros Hpq. induction s as [|c s IH]; simpl; [reflexivity|].
  intros H. apply andb_true_iff in H. destruct H as [Hc Hs].
  rewrite (Hpq c Hc), (IH Hs). reflexivity.
Qed.

Lemma all_chars_app (p : ascii -> bool) (s t : string) :
  all_chars p (s ++ t) = all_chars p s && all_chars p t.
Proof.
  induction s as [|c s IH]; simpl; [reflexivity|].
  rewrite IH, andb_assoc. reflexivity.
Qed.

Lemma length_app (s t : string) : length (s ++ t) = length s + length t.
Proof. induction s as [|c s IH]; simpl; [reflexivity|]. rewrite IH. reflexivity. Qed.

Lemma app_empty_r (s : string) : s ++ "" = s.
Proof. induction s as [|c s IH]; simpl; [reflexivity|]. rewrite IH. reflexivity. Qed.

Lemma app_assoc (s t u : string) : (s ++ t) ++ u = s ++ t ++ u.
Proof. induction s as [|c s IH]; simpl; [reflexivity|]. rewrite IH. reflexivity. Qed.

(** *** [replace] *)

Lemma startswith_other_head (a c : ascii) (old s : string) :
  Ascii.eqb c a = false -> startswith (String a old) (String c s) = false.
Proof. intros H. simpl. rewrite H. reflexivity. Qed.

Lemma startswith_app (p s : string) : startswith p (p ++ s) = true.
Proof.
  induction p as [|a p IH]; simpl; [reflexivity|].
  rewrite Ascii.eqb_refl, IH. reflexivity.
Qed.

(** A text without the first character of [old] holds no occurrence. *)
Lemma replace_from_absent (a : ascii) (old new s : string) :
  all_chars (fun c => negb (Ascii.eqb c a)) s = true ->
  replace_from (String a old) new 0 s = s.
Proof.
  induction s as [|c s IH]; [reflexivity|].
  cbn [all_chars]. intros H. apply andb_true_iff in H. destruct H as [Hc Hs].
  apply negb_true_iff in Hc.
  cbn [replace_from]. rewrite (startswith_other_head a c old s Hc).
  rewrite (IH Hs). reflexivity.
Qed.

Lemma replace_from_app_absent (a : ascii) (old new s t : string) :
  all_chars (fun c => negb (Ascii.eqb c a)) s = true ->
  replace_from (String a old) new 0 (s ++ t) = s ++ replace_from (String a old) new 0 t.
Proof.
  induction s as [|c s IH]; [reflexivity|].
  cbn [all_chars]. intros H. apply andb_true_iff in H. destruct H as [Hc Hs].
  apply negb_true_iff in Hc.
  cbn [append replace_from]. rewrite (startswith_other_head a c old (s ++ t) Hc).
  rewrite (IH Hs). reflexivity.
Qed.

Lemma hex_text_without (a : ascii) (s : string) :
  is_hex a = false -> hex_text s = true ->
  all_chars (fun c => negb (Ascii.eqb c a)) s = true.
Proof.
  intros Ha. unfold hex_text. induction s as [|c s IH]; simpl; [reflexivity|].
  intros H. apply andb_true_iff in H. destruct H as [Hc Hs].
  rewrite (IH Hs), andb_true_r. apply negb_true_iff.
  destruct (Ascii.eqb_spec c a) as [->|N]; [congruence|reflexivity].
Qed.

(** *** [strip] *)

Lemma lstrip_head (chars : string) (c : ascii) (s : string) :
  mem_char c chars = false -> lstrip chars (String c s) = String c s.
Proof. intros H. simpl. rewrite H. reflexivity. Qed.

Lemma rstrip_kept (chars s : string) :
  all_chars (fun c => negb (mem_char c chars)) s = true -> rstrip chars s = s.
Proof.
  induction s as [|c s IH]; [reflexivity|].
  cbn [all_chars]. intros H. apply andb_true_iff in H. destruct H as [Hc Hs].
  apply negb_true_iff in Hc.
  cbn [rstrip]. rewrite (IH Hs). destruct s; [rewrite Hc|]; reflexivity.
Qed.

Lemma rstrip_app_stripped (chars s : string) (c : ascii) :
  mem_char c chars = true -> rstrip chars (s ++ String c "") = rstrip chars s.
Proof.
  intros Hc. induction s as [|a s IH]; cbn [append rstrip].
  - rewrite Hc. reflexivity.
  - rewrite IH. reflexivity.
Qed.

Lemma hex_text_unbraced (s : string) :
  hex_text s = true -> all_chars (fun c => negb (mem_char c "{}")) s = true.
Proof.
  unfold hex_text. apply all_chars_impl. intros c Hc.
  destruct (hex_char c Hc) as [_ [_ [H _]]]. rewrite H. reflexivity.
Qed.

Lemma strip_hex_text (s : string) : hex_text s = true -> strip "{}" s = s.
Proof.
  intros H. unfold strip.
  assert (L : lstrip "{}" s = s).
  { destruct s as [|c s]; [reflexivity|]. apply lstrip_head.
    unfold hex_text in H. cbn [all_chars] in H. apply andb_true_iff in H.
    destruct H as [Hc _]. destruct (hex_char c Hc) as [_ [_ [M _]]]. exact M. }
  rewrite L. apply rstrip_kept. apply hex_text_unbraced. exact H.
Qed.

(** *** [int(s, 16)] *)

Lemma scan_hex_text (s : string) (seen : bool) (acc : Z) :
  hex_text s = true -> (0 <= acc)%Z ->
  exists v,
    scan_digits s false seen acc = Some (v, seen || negb (length s =? 0)%nat, "")
    /\ (acc * 16 ^ Z.of_nat (length s) <= v < (acc + 1) * 16 ^ Z.of_nat (length s))%Z.
Proof.
  unfold hex_text. revert seen acc.
  induction s as [|c s IH]; intros seen acc H Hacc.
  - exists acc. cbn [scan_digits length]. rewrite orb_false_r. split; [reflexivity|].
    change (16 ^ Z.of_nat 0)%Z with 1%Z. lia.
  - cbn [all_chars] in H. apply andb_true_iff in H. destruct H as [Hc Hs].
    destruct (hex_char c Hc) as [_ [_ [_ [Hu [_ [_ [_ [_ [_ [d [Hd Hr]]]]]]]]]]].
    cbn [scan_digits]. rewrite Hu, Hd.
    destruct (IH true (16 * acc + d)%Z Hs ltac:(lia)) as [v [Hv Hb]].
    exists v. rewrite Hv. cbn [length orb]. rewrite orb_true_r. split; [reflexivity|].
    rewrite Nat2Z.inj_succ, Z.pow_succ_r by lia.
    assert (P : (0 < 16 ^ Z.of_nat (length s))%Z) by (apply Z.pow_pos_nonneg; lia).
    nia.
Qed.

Lemma all_ascii_hex_text (s : string) : hex_text s = true -> all_chars is_ascii s = true.
Proof.
  unfold hex_text. apply all_chars_impl. intros c Hc.
  destruct (hex_char c Hc) as [_ [_ [_ [_ [H _]]]]]. exact H.
Qed.

Lemma take_prefix16_hex_text (s : string) : hex_text s = true -> take_prefix16 s = s.
Proof.
  unfold hex_text. destruct s as [|c [|x s]]; try reflexivity.
  cbn [all_chars]. intros H.
  apply andb_true_iff in H. destruct H as [_ H].
  apply andb_true_iff in H. destruct H as [Hx _].
  destruct (hex_char x Hx) as [_ [_ [_ [_ [_ [_ [_ [H1 [H2 _]]]]]]]]].
  unfold take_prefix16. rewrite H1, H2, andb_false_r. reflexivity.
Qed.

(** The digits of a non-empty hexadecimal text are read as they stand. *)
Lemma int16_hex_text (s : string) :
  hex_text s = true -> s <> "" ->
  exists v, int16 s = Some v /\ (0 <= v < 16 ^ Z.of_nat (length s))%Z.
Proof.
  intros H Hne. unfold int16, to_ascii. rewrite (all_ascii_hex_text s H).
  unfold long_from_string16.
  destruct s as [|c s]; [contradiction|].
  pose proof H as H'. unfold hex_text in H'. cbn [all_chars] in H'.
  apply andb_true_iff in H'. destruct H' as [Hc _].
  destruct (hex_char c Hc) as [_ [Hm [_ [Hu [_ [Hs [Hp _]]]]]]].
  cbn [skip_spaces]. rewrite Hs. cbn [take_sign]. rewrite Hp, Hm.
  rewrite (take_prefix16_hex_text _ H). cbn [starts_with_underscore]. rewrite Hu.
  destruct (scan_hex_text (String c s) false 0 H ltac:(lia)) as [v [Hv Hb]].
  rewrite Hv. cbn [length Nat.eqb negb orb skip_spaces].
  exists v. split; [f_equal; lia|]. cbn [length] in Hb. lia.
Qed.

(** *** Texts of digits and hyphens *)

Lemma replace_from_skip (old new p t : string) :
  replace_from old new (length p) (p ++ t) = replace_from old new 0 t.
Proof.
  induction p as [|c p IH]; cbn [length append]; [reflexivity|].
  cbn [replace_from]. exact IH.
Qed.

Lemma replace_from_match (a : ascii) (old new t : string) :
  replace_from (String a old) new 0 (String a old ++ t)
  = new ++ replace_from (String a old) new 0 t.
Proof.
  cbn [append replace_from].
  change (String a (old ++ t)) with (String a old ++ t).
  rewrite startswith_app. cbn [length]. rewrite Nat.sub_1_r. cbn [Nat.pred].
  rewrite replace_from_skip. reflexivity.
Qed.

Lemma replace_from_keep (old new : string) (c : ascii) (s : string) :
  startswith old (String c s) = false ->
  replace_from old new 0 (String c s) = String c (replace_from old new 0 s).
Proof. intros H. cbn [replace_from]. rewrite H. reflexivity. Qed.

Lemma hex_text_plain (s : string) : hex_text s = true -> plain_text s = true.
Proof.
  unfold hex_text, plain_text. apply all_chars_impl. intros c ->. reflexivity.
Qed.

Lemma plain_text_app (s t : string) :
  plain_text (s ++ t) = plain_text s && plain_text t.
Proof. apply all_chars_app. Qed.

Lemma plain_char (c : ascii) :
  is_hex c || Ascii.eqb c "-" = true ->
  Ascii.eqb c "u" = false /\ mem_char c "{}" = false.
Proof.
  intros H. apply orb_true_iff in H. destruct H as [H|H].
  - destruct (hex_char c H) as [H1 [_ [H2 _]]]. split; assumption.
  - apply Ascii.eqb_eq in H. subst c. split; reflexivity.
Qed.

Lemma plain_text_without_u (s : string) :
  plain_text s = true -> all_chars (fun c => negb (Ascii.eqb c "u")) s = true.
Proof.
  unfold plain_text. apply all_chars_impl. intros c Hc.
  destruct (plain_char c Hc) as [H _]. rewrite H. reflexivity.
Qed.

Lemma plain_text_unbraced (s : string) :
  plain_text s = true -> all_chars (fun c => negb (mem_char c "{}")) s = true.
Proof.
  unfold plain_text. apply all_chars_impl. intros c Hc.
  destruct (plain_char c Hc) as [_ H]. rewrite H. reflexivity.
Qed.

Lemma replace_urn_plain (s : string) :
  plain_text s = true -> replace "urn:" "" s = s.
Proof. intros H. apply replace_from_absent. apply plain_text_without_u. exact H. Qed.

Lemma replace_uuid_plain (s : string) :
  plain_text s = true -> replace "uuid:" "" s = s.
Proof. intros H. apply replace_from_absent. apply plain_text_without_u. exact H. Qed.

Lemma lstrip_plain (s : string) : plain_text s = true -> lstrip "{}" s = s.
Proof.
  destruct s as [|c s]; [reflexivity|]. intros H. apply lstrip_head.
  unfold plain_text in H. cbn [all_chars] in H. apply andb_true_iff in H.
  destruct H as [Hc _]. destruct (plain_char c Hc) as [_ M]. exact M.
Qed.

Lemma strip_plain (s : string) : plain_text s = true -> strip "{}" s = s.
Proof.
  intros H. unfold strip. rewrite (lstrip_plain s H).
  apply rstrip_kept. apply plain_text_unbraced. exact H.
Qed.

Lemma strip_braced (s : string) :
  plain_text s = true -> s <> "" -> strip "{}" ("{" ++ s ++ "}") = s.
Proof.
  intros H Hne. unfold strip.
  assert (L : lstrip "{}" ("{" ++ s ++ "}") = s ++ "}").
  { cbn [append lstrip mem_char Ascii.eqb Bool.eqb orb].
    destruct s as [|c s]; [contradiction|]. cbn [append]. apply lstrip_head.
    unfold plain_text in H. cbn [all_chars] in H. apply andb_true_iff in H.
    destruct H as [Hc _]. destruct (plain_char c Hc) as [_ M]. exact M. }
  rewrite L, rstrip_app_stripped by reflexivity.
  apply rstrip_kept. apply plain_text_unbraced. exact H.
Qed.

Lemma replace_urn_prefixed (s : string) :
  plain_text s = true ->
  replace "uuid:" "" (replace "urn:" "" ("urn:uuid:" ++ s)) = s.
Proof.
  intros H. unfold replace.
  change ("urn:uuid:" ++ s) with ("urn:" ++ "uuid:" ++ s).
  rewrite replace_from_match. cbn [append].
  rewrite (replace_from_keep "urn:" "" "u") by reflexivity.
  rewrite (replace_from_keep "urn:" "" "u") by reflexivity.
  rewrite (replace_from_keep "urn:" "" "i") by reflexivity.
  rewrite (replace_from_keep "urn:" "" "d") by reflexivity.
  rewrite (replace_from_keep "urn:" "" ":") by (destruct s; reflexivity).
  rewrite (replace_from_absent "u" "rn:" "" s) by (apply plain_text_without_u; exact H).
  change (String "u" (String "u" (String "i" (String "d" (String ":" s)))))
    with ("uuid:" ++ s).
  rewrite replace_from_match. cbn [append].
  apply replace_from_absent. apply plain_text_without_u. exact H.
Qed.

(** Removing the hyphens: a text of digits stays, a hyphen goes. *)
Lemma replace_hyphen_hex (s t : string) :
  hex_text s = true ->
  replace "-" "" (s ++ t) = s ++ replace "-" "" t.
Proof.
  intros H. unfold replace. apply replace_from_app_absent.
  apply hex_text_without; [reflexivity|exact H].
Qed.

Lemma replace_hyphen_head (t : string) :
  replace "-" "" ("-" ++ t) = replace "-" "" t.
Proof. reflexivity. Qed.

Lemma replace_hyphen_hex_text (s : string) :
  hex_text s = true -> replace "-" "" s = s.
Proof.
  intros H. apply replace_from_absent. apply hex_text_without; [reflexivity|exact H].
Qed.

Lemma hyphenated_plain (a b c d e : string) :
  hex_text (a ++ b ++ c ++ d ++ e) = true ->
  plain_text (hyphenated a b c d e) = true.
Proof.
  unfold hex_text, hyphenated. rewrite !all_chars_app. intros H.
  repeat (apply andb_true_iff in H; destruct H as [? H]).
  unfold plain_text. rewrite !all_chars_app.
  repeat (apply andb_true_iff; split);
    try reflexivity; apply hex_text_plain; assumption.
Qed.

Lemma replace_hyphen_hyphenated (a b c d e : string) :
  hex_text (a ++ b ++ c ++ d ++ e) = true ->
  replace "-" "" (hyphenated a b c d e) = a ++ b ++ c ++ d ++ e.
Proof.
  unfold hex_text, hyphenated. rewrite !all_chars_app. intros H.
  repeat (apply andb_true_iff in H; destruct H as [? H]).
  rewrite replace_hyphen_hex, replace_hyphen_head by assumption.
  rewrite replace_hyphen_hex, replace_hyphen_head by assumption.
  rewrite replace_hyphen_hex, replace_hyphen_head by assumption.
  rewrite replace_hyphen_hex, replace_hyphen_head by assumption.
  rewrite replace_hyphen_hex_text by assumption. reflexivity.
Qed.

End PyFacts.

(** ** The UUID constructor *)

Module UuidFacts.
Import Uuid.

Local Open Scope Z_scope.

Lemma land_pow2 (x k : Z) :
  0 <= k -> Z.land x (2 ^ k) = if Z.testbit x k then 2 ^ k else 0.
Proof.
  intros Hk. apply Z.bits_inj'. intros n Hn.
  rewrite Z.land_spec, Z.pow2_bits_eqb by lia.
  destruct (Z.eqb_spec k n) as [->|N].
  - rewrite andb_true_r. destruct (Z.testbit x n) eqn:E.
    + rewrite Z.pow2_bits_true by lia. reflexivity.
    + rewrite Z.bits_0. reflexivity.
  - rewrite andb_false_r. destruct (Z.testbit x k).
    + rewrite Z.pow2_bits_false by lia. reflexivity.
    + rewrite Z.bits_0. reflexivity.
Qed.

Lemma set_version_bit (i v n : Z) :
  0 <= n ->
  Z.testbit (set_version i v) n =
  ((Z.testbit i n && negb (Z.testbit (Z.shiftl 0xc000 48) n)
    || Z.testbit (Z.shiftl 0x8000 48) n)
   && negb (Z.testbit (Z.shiftl 0xf000 64) n)
   || Z.testbit (Z.shiftl v 76) n)%bool.
Proof.
  intros Hn. unfold set_version. cbv zeta.
  repeat first [rewrite Z.lor_spec | rewrite Z.land_spec].
  rewrite !Z.lnot_spec by lia. reflexivity.
Qed.

(** The variant bits after [set_version]: bit 63 set, bit 62 clear. *)
Lemma set_version_variant (i v : Z) : variant (mkUUID (set_version i v)) = RFC_4122.
Proof.
  unfold variant. cbn [int].
  change (Z.shiftl 0x8000 48) with (2 ^ 63).
  change (Z.shiftl 0x4000 48) with (2 ^ 62).
  rewrite !land_pow2 by lia.
  rewrite !set_version_bit by lia.
  rewrite (Z.shiftl_spec_low v 76 63), (Z.shiftl_spec_low v 76 62) by lia.
  change (Z.testbit (Z.shiftl 49152 48) 63) with true.
  change (Z.testbit (Z.shiftl 32768 48) 63) with true.
  change (Z.testbit (Z.shiftl 61440 64) 63) with false.
  change (Z.testbit (Z.shiftl 49152 48) 62) with true.
  change (Z.testbit (Z.shiftl 32768 48) 62) with false.
  change (Z.testbit (Z.shiftl 61440 64) 62) with false.
  rewrite !andb_false_r, !orb_true_r. reflexivity.
Qed.

(** The version bits after [set_version] are those of the argument,
    whatever the value held before. *)
Lemma set_version_nibble (i v : Z) :
  0 <= v < 16 -> Z.land (Z.shiftr (set_version i v) 76) 0xf = v.
Proof.
  intros Hv. apply Z.bits_inj'. intros n Hn.
  rewrite Z.land_spec, Z.shiftr_spec, set_version_bit by lia.
  rewrite (Z.shiftl_spec v 76 (n + 76)) by lia.
  replace (n + 76 - 76) with n by lia.
  destruct (Z.ltb_spec n 4) as [L|G].
  - assert (C : n = 0 \/ n = 1 \/ n = 2 \/ n = 3) by lia.
    destruct C as [-> | [-> | [-> | ->]]]; cbn [Z.add Pos.add Pos.succ];
      match goal with
      | |- context [Z.testbit (Z.shiftl 61440 64) ?k] =>
          change (Z.testbit (Z.shiftl 61440 64) k) with true
      end;
      match goal with
      | |- context [Z.testbit 15 ?k] => change (Z.testbit 15 k) with true
      end;
      rewrite andb_false_r, andb_true_r; reflexivity.
  - assert (B15 : Z.testbit 15 n = false).
    { apply Z.bits_above_log2; [lia|]. change (Z.log2 15) with 3. lia. }
    assert (Bv : Z.testbit v n = false).
    { destruct (Z.eq_dec v 0) as [->|N]; [apply Z.bits_0|].
      apply Z.bits_above_log2; [lia|].
      assert (Z.log2 v < 4) by (apply Z.log2_lt_pow2; lia). lia. }
    rewrite B15, Bv, andb_false_r. reflexivity.
Qed.

Lemma set_version_version (i v : Z) :
  0 <= v < 16 -> version (mkUUID (set_version i v)) = Some v.
Proof.
  intros Hv. unfold version. rewrite set_version_variant. cbn [int].
  rewrite set_version_nibble by exact Hv. reflexivity.
Qed.

Local Close Scope Z_scope.

Lemma UUID_init_digits (s t : string) (v : option Z) :
  digits_of s = digits_of t -> UUID_init s v = UUID_init t v.
Proof. unfold digits_of, UUID_init. cbv zeta. intros ->. reflexivity. Qed.

Lemma digits_of_plain (s : string) :
  plain_text s = true -> digits_of s = Py.replace "-" "" s.
Proof.
  intros H. unfold digits_of.
  rewrite (PyFacts.replace_urn_plain s H), (PyFacts.replace_uuid_plain s H),
    (PyFacts.strip_plain s H). reflexivity.
Qed.

Lemma digits_of_hex_text (h : string) : hex_text h = true -> digits_of h = h.
Proof.
  intros H. rewrite digits_of_plain by (apply PyFacts.hex_text_plain; exact H).
  apply PyFacts.replace_hyphen_hex_text. exact H.
Qed.

Lemma digits_of_braced (s : string) :
  plain_text s = true -> s <> "" -> digits_of ("{" ++ s ++ "}") = Py.replace "-" "" s.
Proof.
  intros H Hne. unfold digits_of.
  assert (P : plain_text "{" = false) by reflexivity.
  assert (U : Py.all_chars (fun c => negb (Ascii.eqb c "u")) ("{" ++ s ++ "}") = true).
  { rewrite !PyFacts.all_chars_app, (PyFacts.plain_text_without_u s H). reflexivity. }
  rewrite (PyFacts.replace_from_absent "u" "rn:" "" _ U : Py.replace "urn:" "" _ = _).
  rewrite (PyFacts.replace_from_absent "u" "uid:" "" _ U : Py.replace "uuid:" "" _ = _).
  rewrite (PyFacts.strip_braced s H Hne). reflexivity.
Qed.

Lemma digits_of_urn (s : string) :
  plain_text s = true -> digits_of ("urn:uuid:" ++ s) = Py.replace "-" "" s.
Proof.
  intros H. unfold digits_of.
  rewrite (PyFacts.replace_urn_prefixed s H), (PyFacts.strip_plain s H). reflexivity.
Qed.

(** Thirty-two hexadecimal digits make a UUID, and with [version=4] the
    value read is kept but for the variant and version bits. *)
Lemma UUID_init_hex32 (h : string) :
  hex_text h = true -> length h = 32 ->
  exists i,
    (0 <= i < 2 ^ 128)%Z
    /\ UUID_init h None = Ok (mkUUID i)
    /\ UUID_init h (Some 4%Z) = Ok (mkUUID (set_version i 4)).
Proof.
  intros H L. unfold UUID_init. cbv zeta.
  fold (digits_of h). rewrite (digits_of_hex_text h H), L. cbn [Nat.eqb negb].
  destruct (PyFacts.int16_hex_text h H) as [i [Hi Hb]];
    [intros ->; discriminate L|].
  rewrite Hi. rewrite L in Hb.
  change (16 ^ Z.of_nat 32)%Z with (2 ^ 128)%Z in Hb.
  change (Z.shiftl 1 128) with (2 ^ 128)%Z.
  destruct (Z.leb_spec 0 i) as [_|F]; [|lia].
  destruct (Z.ltb_spec i (2 ^ 128)) as [_|F]; [|lia].
  exists i. repeat split; try lia; reflexivity.
Qed.

Lemma is_valid_uuid4_digits (s h : string) :
  digits_of s = h -> hex_text h = true -> length h = 32 ->
  is_valid_uuid4 s = Ok true.
Proof.
  intros D H L. unfold is_valid_uuid4.
  rewrite (UUID_init_digits s h (Some 4%Z)) by (rewrite (digits_of_hex_text h H); exact D).
  destruct (UUID_init_hex32 h H L) as [i [_ [_ E]]]. rewrite E. reflexivity.
Qed.

(** Whatever is accepted with [version=4] comes out as a version 4 UUID
    of the RFC 4122 variant. *)
Lemma UUID_init_version4 (s : string) (u : UUID) :
  UUID_init s (Some 4%Z) = Ok u ->
  version u = Some 4%Z /\ variant u = RFC_4122.
Proof.
  unfold UUID_init. cbv zeta.
  destruct (negb (length _ =? 32)%nat); [discriminate|].
  destruct (Py.int16 _) as [i|]; [|discriminate].
  destruct (negb _); [discriminate|]. cbn [negb Z.leb Z.compare andb].
  intros E. inversion E. split.
  - apply set_version_version. lia.
  - apply set_version_variant.
Qed.

(** With [version=4] the constructor accepts what it accepts without a
    version: the version found in the text is not looked at. *)
Lemma UUID_init_any_version (s : string) (u0 : UUID) :
  UUID_init s None = Ok u0 ->
  UUID_init s (Some 4%Z) = Ok (mkUUID (set_version (int u0) 4)).
Proof.
  unfold UUID_init. cbv zeta.
  destruct (negb (length _ =? 32)%nat); [discriminate|].
  destruct (Py.int16 _) as [i|]; [|discriminate].
  destruct (negb _); [discriminate|].
  intros E. inversion E. reflexivity.
Qed.

Lemma UUID_init_raises_ValueError (s : string) (v : option Z) (e : exn) :
  UUID_init s v = Raise e -> exists msg, e = ValueError msg.
Proof.
  unfold UUID_init. cbv zeta.
  destruct (negb (length _ =? 32)%nat); [intros E; inversion E; eexists; reflexivity|].
  destruct (Py.int16 _) as [i|]; [|intros E; inversion E; eexists; reflexivity].
  destruct (negb _); [intros E; inversion E; eexists; reflexivity|].
  destruct v as [v|]; [|discriminate].
  destruct (negb _); [intros E; inversion E; eexists; reflexivity|discriminate].
Qed.

End UuidFacts.

(** ** The default validator *)

(** C10. [is_valid_uuid4] is true exactly where [UUID(text, version=4)]
    returns and false exactly where it raises [ValueError]; it never
    raises.  What the constructor returns has version 4 whatever the text
    said, and a text accepted without [version] is accepted with it: the
    version is written, not checked.  So thirty-two hexadecimal digits of
    either case and of any version are valid, bare, in braces, behind
    "urn:uuid:" and with hyphens, which is more than the lower-case
    texts of [uuid4().hex]. *)
Theorem default_validator_accepts_what_UUID_parses :
  (forall s, is_valid_uuid4 s = Ok true <-> exists u, Uuid.UUID_init s (Some 4%Z) = Ok u)
  /\ (forall s, is_valid_uuid4 s = Ok false
                <-> exists m, Uuid.UUID_init s (Some 4%Z) = Raise (ValueError m))
  /\ (forall s, exists b, is_valid_uuid4 s = Ok b)
  /\ (forall s u, Uuid.UUID_init s (Some 4%Z) = Ok u -> Uuid.version u = Some 4%Z)
  /\ (forall s u0, Uuid.UUID_init s None = Ok u0 ->
        Uuid.UUID_init s (Some 4%Z) = Ok (Uuid.mkUUID (Uuid.set_version (Uuid.int u0) 4))
        /\ is_valid_uuid4 s = Ok true)
  /\ (forall h, hex_text h = true -> length h = 32 ->
        is_valid_uuid4 h = Ok true
        /\ is_valid_uuid4 ("{" ++ h ++ "}") = Ok true
        /\ is_valid_uuid4 ("urn:uuid:" ++ h) = Ok true)
  /\ (forall a b c d e,
        hex_text (a ++ b ++ c ++ d ++ e) = true -> length (a ++ b ++ c ++ d ++ e) = 32 ->
        is_valid_uuid4 (hyphenated a b c d e) = Ok true
        /\ is_valid_uuid4 ("{" ++ hyphenated a b c d e ++ "}") = Ok true
        /\ is_valid_uuid4 ("urn:uuid:" ++ hyphenated a b c d e) = Ok true)
  /\ (exists s, lower_hex32 s = false /\ is_valid_uuid4 s = Ok true).
Proof.
  assert (T : forall s u, Uuid.UUID_init s (Some 4%Z) = Ok u -> is_valid_uuid4 s = Ok true).
  { intros s u E. unfold is_valid_uuid4. rewrite E. reflexivity. }
  assert (F : forall s m, Uuid.UUID_init s (Some 4%Z) = Raise (ValueError m) ->
                          is_valid_uuid4 s = Ok false).
  { intros s m E. unfold is_valid_uuid4. rewrite E. reflexivity. }
  assert (D : forall s, (exists u, Uuid.UUID_init s (Some 4%Z) = Ok u)
                        \/ exists m, Uuid.UUID_init s (Some 4%Z) = Raise (ValueError m)).
  { intros s. destruct (Uuid.UUID_init s (Some 4%Z)) as [u|e] eqn:E.
    - left. exists u. reflexivity.
    - right. destruct (UuidFacts.UUID_init_raises_ValueError s _ e E) as [m ->].
      exists m. reflexivity. }
  split; [|split; [|split; [|split; [|split; [|split; [|split]]]]]].
  - intros s. split.
    + intros V. destruct (D s) as [H|[m H]]; [exact H|].
      rewrite (F s m H) in V. discriminate V.
    + intros [u H]. exact (T s u H).
  - intros s. split.
    + intros V. destruct (D s) as [[u H]|H]; [|exact H].
      rewrite (T s u H) in V. discriminate V.
    + intros [m H]. exact (F s m H).
  - intros s. destruct (D s) as [[u H]|[m H]].
    + exists true. exact (T s u H).
    + exists false. exact (F s m H).
  - intros s u H. exact (proj1 (UuidFacts.UUID_init_version4 s u H)).
  - intros s u0 H. pose proof (UuidFacts.UUID_init_any_version s u0 H) as E.
    split; [exact E|exact (T s _ E)].
  - intros h H L.
    assert (P : plain_text h = true) by (apply PyFacts.hex_text_plain; exact H).
    assert (N : h <> "") by (intros ->; discriminate L).
    assert (R : Py.replace "-" "" h = h) by (apply PyFacts.replace_hyphen_hex_text; exact H).
    split; [|split].
    + apply (UuidFacts.is_valid_uuid4_digits h h);
        [apply UuidFacts.digits_of_hex_text; exact H|exact H|exact L].
    + apply (UuidFacts.is_valid_uuid4_digits _ h);
        [rewrite UuidFacts.digits_of_braced by assumption; exact R|exact H|exact L].
    + apply (UuidFacts.is_valid_uuid4_digits _ h);
        [rewrite UuidFacts.digits_of_urn by assumption; exact R|exact H|exact L].
  - intros a b c d e H L.
    assert (P : plain_text (hyphenated a b c d e) = true)
      by (apply PyFacts.hyphenated_plain; exact H).
    assert (N : hyphenated a b c d e <> "").
    { unfold hyphenated. destruct a; discriminate. }
    pose proof (PyFacts.replace_hyphen_hyphenated a b c d e H) as R.
    split; [|split].
    + apply (UuidFacts.is_valid_uuid4_digits _ (a ++ b ++ c ++ d ++ e));
        [rewrite UuidFacts.digits_of_plain by assumption; exact R|exact H|exact L].
    + apply (UuidFacts.is_valid_uuid4_digits _ (a ++ b ++ c ++ d ++ e));
        [rewrite UuidFacts.digits_of_braced by assumption; exact R|exact H|exact L].
    + apply (UuidFacts.is_valid_uuid4_digits _ (a ++ b ++ c ++ d ++ e));
        [rewrite UuidFacts.digits_of_urn by assumption; exact R|exact H|exact L].
  - exists "12345678-1234-1134-8234-123456789ABC". split; reflexivity.
Qed.

(** A version 1 UUID in its several spellings. *)
Lemma default_validator_accepts_what_UUID_parses_witness :
  is_valid_uuid4 "12345678123411348234123456789ABC" = Ok true
  /\ is_valid_uuid4 "{12345678123411348234123456789abc}" = Ok true
  /\ is_valid_uuid4 "urn:uuid:12345678-1234-1134-8234-123456789abc" = Ok true
  /\ is_valid_uuid4 "12345678-1234-1134-8234-123456789abc" = Ok true
  /\ Uuid.UUID_init "12345678123411348234123456789abc" (Some 4%Z)
     = Ok (Uuid.mkUUID 0x12345678123441348234123456789abc)
  /\ Uuid.version (Uuid.mkUUID 0x12345678123411348234123456789abc) = Some 1%Z.
Proof.
  destruct default_validator_accepts_what_UUID_parses
    as [_ [_ [_ [_ [V [H [G _]]]]]]].
  split; [|split; [|split; [|split; [|split]]]].
  - exact (proj1 (H "12345678123411348234123456789ABC" eq_refl eq_refl)).
  - exact (proj1 (proj2 (H "12345678123411348234123456789abc" eq_refl eq_refl))).
  - exact (proj2 (proj2 (G "12345678" "1234" "1134" "8234" "123456789abc"
                           eq_refl eq_refl))).
  - exact (proj1 (G "12345678" "1234" "1134" "8234" "123456789abc" eq_refl eq_refl)).
  - exact (proj1 (V "12345678123411348234123456789abc"
                    (Uuid.mkUUID 0x12345678123411348234123456789abc) eq_refl)).
  - reflexivity.
Defined.

(** ** Construction *)

Section Construction.

Context {Ext Other Receive : Type}.
Implicit Types (env : Environment Ext)
               (fields self : CorrelationIdMiddleware Ext Other Receive)
               (w : World Ext).

Lemma with_hooks_same fields : with_hooks fields (hooks fields) = fields.
Proof. destruct fields. reflexivity. Qed.

Lemma post_init_outcome env fields w :
  (exists w',
      post_init env fields w
      = (Ok (with_hooks fields (hooks fields ++ optional_hooks env)%list), w'))
  \/ (exists load e w',
        load_correlation_ids env = Some load
        /\ load w = (Raise e, w')
        /\ (forall name, e <> ImportError name)
        /\ post_init env fields w = (Raise e, w')).
Proof.
  unfold post_init, bind, except_ImportError, optional_hooks.
  assert (R : forall w',
             (match set_transaction_id env with
              | Some hook => ret (with_hooks fields (hooks fields ++ [hook])%list)
              | None => ret fields
              end) w'
             = (Ok (with_hooks fields
                      (hooks fields ++ match set_transaction_id env with
                                       | Some hook => [hook]
                                       | None => []
                                       end)%list), w')).
  { intros w'. destruct (set_transaction_id env); [reflexivity|].
    rewrite app_nil_r, with_hooks_same. reflexivity. }
  destruct (load_correlation_ids env) as [load|].
  - destruct (load w) as [[[]|e] w'] eqn:E.
    + left. exists w'. apply R.
    + destruct e as [m|k|name|cls m];
        try (right; exists load; eexists; exists w';
             split; [reflexivity|]; split; [exact E|];
             split; [intros name; discriminate|reflexivity]).
      left. exists w'. apply R.
  - left. exists w. apply (R w).
Qed.

Lemma post_init_fields env fields w self w' :
  post_init env fields w = (Ok self, w') ->
  self = with_hooks fields (hooks fields ++ optional_hooks env)%list.
Proof.
  intros H. destruct (post_init_outcome env fields w) as [[w1 E]|[load [e [w1 [_ [_ [_ E]]]]]]];
    rewrite E in H; inversion H. reflexivity.
Qed.

(** C3, as the code has it.  Construction calls [load_correlation_ids]
    where the Celery extension can be imported: it ends in the world the
    loader left, raises what the loader raised unless that is an
    [ImportError], and otherwise returns the middleware whose hook list
    is the list provided followed by [set_transaction_id] where the
    Sentry extension can be imported; the other fields are those
    provided.  Without the Celery extension the world stays as it was.
    Where the Sentry extension cannot be imported, and only there, the
    hook list is the list provided. *)
Theorem construction_loads_extensions env fields w :
  exists self,
    hooks self
    = (hooks fields ++ match set_transaction_id env with
                       | Some hook => [hook]
                       | None => []
                       end)%list
    /\ (hooks self = hooks fields <-> set_transaction_id env = None)
    /\ with_hooks self (hooks fields) = fields
    /\ (load_correlation_ids env = None -> post_init env fields w = (Ok self, w))
    /\ (forall load r w',
          load_correlation_ids env = Some load ->
          load w = (r, w') ->
          post_init env fields w
          = (match r with
             | Ok _ => Ok self
             | Raise (ImportError _) => Ok self
             | Raise e => Raise e
             end, w')).
Proof.
  exists (with_hooks fields (hooks fields ++ optional_hooks env)%list).
  assert (R : forall w',
             (match set_transaction_id env with
              | Some hook => ret (with_hooks fields (hooks fields ++ [hook])%list)
              | None => ret fields
              end) w'
             = (Ok (with_hooks fields (hooks fields ++ optional_hooks env)%list), w')).
  { intros w'. unfold optional_hooks. destruct (set_transaction_id env); [reflexivity|].
    rewrite app_nil_r, with_hooks_same. reflexivity. }
  split; [reflexivity|]. split; [|split; [|split]].
  - unfold optional_hooks. cbn [with_hooks hooks].
    destruct (set_transaction_id env) as [hook|]; split; intros H;
      try discriminate H; try reflexivity.
    + apply (f_equal (@List.length _)) in H. rewrite List.length_app in H.
      simpl in H. lia.
    + apply app_nil_r.
  - destruct fields. reflexivity.
  - intros N. unfold post_init, bind, except_ImportError. rewrite N. cbn [raise].
    apply R.
  - intros load r w' Hl Hr. unfold post_init, bind, except_ImportError.
    rewrite Hl, Hr. destruct r as [[]|e]; [apply R|].
    destruct e; try reflexivity. apply R.
Qed.

End Construction.

(** C3, as the specification has it, fails: with the Sentry extension
    installed, the middleware built from an empty hook list dispatches a
    hook, and without the extension it dispatches none. *)
Lemma hooks_depend_on_environment :
  ~ (forall (env : Environment Demo.Trace)
            (fields self : CorrelationIdMiddleware Demo.Trace unit unit)
            (w w' : World Demo.Trace),
        post_init env fields w = (Ok self, w') -> hooks self = hooks fields).
Proof.
  intros H.
  specialize (H Demo.with_sentry (Demo.default_app [])
                (with_hooks (Demo.default_app []) [Demo.recording_hook])
                Demo.idle Demo.idle eq_refl).
  discriminate H.
Qed.

(** Construction with the Celery and Sentry extensions, and with neither. *)
Lemma construction_loads_extensions_witness :
  (exists self,
      post_init Cases.with_celery (Demo.default_app []) Demo.idle
      = (Ok self, mkWorld None [] [Demo.Hooked "celery"])
      /\ hooks self = [Demo.recording_hook])
  /\ (exists self,
        post_init Demo.bare (Demo.default_app []) Demo.idle = (Ok self, Demo.idle)
        /\ hooks self = []).
Proof.
  split.
  - destruct (construction_loads_extensions Cases.with_celery (Demo.default_app [])
                Demo.idle) as [self [Hh [_ [_ [_ H]]]]].
    exists self. split; [|exact Hh].
    exact (H (Demo.emit (Demo.Hooked "celery")) (Ok tt)
             (mkWorld None [] [Demo.Hooked "celery"]) eq_refl eq_refl).
  - destruct (construction_loads_extensions Demo.bare (Demo.default_app []) Demo.idle)
      as [self [Hh [_ [_ [H _]]]]].
    exists self. split; [exact (H eq_refl)|exact Hh].
Defined.

(** ** The default configuration *)

Section DefaultConfiguration.

Context {Ext Other Receive : Type}.
Implicit Types (env : Environment Ext) (inner : ASGIApp Ext Other Receive)
               (uuid4_hex : M Ext string)
               (self : CorrelationIdMiddleware Ext Other Receive)
               (scope : Scope Other) (receive : Receive) (send : Send Ext Other)
               (message : Message Other) (w s : World Ext).

Lemma lower_hex32_valid (inbound : string) :
  lower_hex32 inbound = true ->
  is_valid_uuid4 inbound = Ok true /\ inbound <> "".
Proof.
  unfold lower_hex32. intros H. apply andb_true_iff in H. destruct H as [L H].
  apply Nat.eqb_eq in L.
  assert (X : hex_text inbound = true).
  { unfold hex_text. revert H. apply PyFacts.all_chars_impl.
    exact PyFacts.lower_hex_is_hex. }
  split.
  - apply (UuidFacts.is_valid_uuid4_digits inbound inbound);
      [apply UuidFacts.digits_of_hex_text; exact X|exact X|exact L].
  - intros ->. discriminate L.
Qed.

Lemma differs_same (a : string) : differs a (Some a) = false.
Proof. simpl. rewrite String.eqb_refl. reflexivity. Qed.

(** C4, as the code has it.  The middleware built with the field
    defaults, in whatever environment, reuses an inbound value of 32
    lower-case hexadecimal digits: nothing is generated or logged, the
    scope reaches the inner handler as it came, and with hooks that
    leave the context alone the handler starts in a world whose context
    holds that value.  A message that starts the response and carries
    headers gets that very value under the header name while the context
    holds it, and so does the response of every handler that sends that
    message before anyone has set the context anew. *)
Theorem valid_id_echoed_while_published env inner uuid4_hex w0 self w0'
    (inbound : string) scope receive send w w3 :
  post_init env (defaults inner uuid4_hex) w0 = (Ok self, w0') ->
  lower_hex32 inbound = true ->
  scope_type scope = "http" ->
  Starlette.get (scope_headers scope) "x-request-id" = Some inbound ->
  Forall keeps_context (hooks self) ->
  call_hooks (hooks self) inbound (published inbound w) = (Ok tt, w3) ->
  call self scope receive send w
  = inner scope receive (handle_outgoing_request self send) w3
  /\ correlation_id w3 = Some inbound
  /\ (forall message (headers : Starlette.RawHeaders) s,
        message_type message = "http.response.start" ->
        message_headers message = Some headers ->
        correlation_id s = Some inbound ->
        handle_outgoing_request self send message s
        = send (mkMessage (message_type message)
                  (Some (headers ++ [("x-request-id", inbound)])%list)
                  (message_other message)) s)
  /\ (forall (pre : M Ext unit) message (headers : Starlette.RawHeaders)
             (rest : Send Ext Other -> M Ext unit),
        keeps_context (fun _ : unit => pre) ->
        message_type message = "http.response.start" ->
        message_headers message = Some headers ->
        (forall snd w1, inner scope receive snd w1 = (pre ;; snd message ;; rest snd) w1) ->
        call self scope receive send w
        = (pre ;;
           send (mkMessage (message_type message)
                   (Some (headers ++ [("x-request-id", inbound)])%list)
                   (message_other message)) ;;
           rest (handle_outgoing_request self send)) w3).
Proof.
  intros Hinit Hhex Hhttp Hget Hk Hhooks.
  apply post_init_fields in Hinit. subst self.
  set (self := with_hooks (defaults inner uuid4_hex) _) in *.
  destruct (lower_hex32_valid inbound Hhex) as [Hvalid Hne].
  assert (Hin : inbound_value self scope = Some inbound) by exact Hget.
  assert (Hres : resolve_id self (inbound_value self scope) w = (Ok inbound, w)).
  { rewrite Hin.
    apply (resolve_id_accepted self inbound (fun uuid_ => lift (is_valid_uuid4 uuid_)) w w);
      [exact Hne|reflexivity|].
    unfold lift. rewrite Hvalid. reflexivity. }
  destruct (echo_through_handler self scope receive send w inbound w inbound w w3
              Hhttp Hres eq_refl Hk Hhooks Hne) as [E [C H]].
  assert (U : update_request_headers self scope (inbound_value self scope) inbound = scope).
  { rewrite Hin. unfold update_request_headers. rewrite differs_same. reflexivity. }
  rewrite U in E, H.
  split; [exact E|]. split; [exact C|]. split.
  - intros message headers s Hm Hh Hs.
    exact (handle_outgoing_start self send message s inbound headers Hm Hs Hne Hh).
  - exact H.
Qed.

End DefaultConfiguration.

(** A whole request through the default middleware. *)
Lemma valid_id_echoed_while_published_witness :
  call (Demo.default_app [Demo.start [("content-type", "text/plain")]; Demo.body])
       (Demo.request [("x-request-id", Demo.cid)]) tt Demo.wire Demo.idle
  = (Ok tt,
     mkWorld (Some Demo.cid) []
       [Demo.Handled (Demo.request [("x-request-id", Demo.cid)]);
        Demo.Sent (Demo.start [("content-type", "text/plain");
                               ("x-request-id", Demo.cid)]);
        Demo.Sent Demo.body]).
Proof.
  destruct (valid_id_echoed_while_published Demo.bare
              (Demo.responding [Demo.start [("content-type", "text/plain")]; Demo.body])
              (Demo.fixed "ffffffffffffffffffffffffffffffff")
              Demo.idle
              (Demo.default_app [Demo.start [("content-type", "text/plain")]; Demo.body])
              Demo.idle Demo.cid
              (Demo.request [("x-request-id", Demo.cid)]) tt Demo.wire Demo.idle
              (published Demo.cid Demo.idle)
              eq_refl eq_refl eq_refl eq_refl (Forall_nil _) eq_refl) as [_ [_ [_ H]]].
  rewrite (H (Demo.emit (Demo.Handled (Demo.request [("x-request-id", Demo.cid)])))
             (Demo.start [("content-type", "text/plain")])
             [("content-type", "text/plain")]
             (fun snd => Demo.send_all snd [Demo.body])).
  - reflexivity.
  - intros a w r w' E. inversion E. reflexivity.
  - reflexivity.
  - reflexivity.
  - intros snd w1. reflexivity.
Defined.

(** C4, as the specification has it, fails: under the default
    configuration, a handler that sets the context to another ID before
    it answers gets that ID as header value, not the valid inbound one. *)
Lemma echo_follows_the_context :
  ~ (forall (inner : ASGIApp Demo.Trace unit unit) (w' : World Demo.Trace)
            (forwarded : Message unit),
        call (defaults inner (Demo.fixed "ffffffffffffffffffffffffffffffff"))
             (Demo.request [("x-request-id", Demo.cid)]) tt Demo.wire Demo.idle
        = (Ok tt, w') ->
        In (Demo.Sent forwarded) (ext w') ->
        message_type forwarded = "http.response.start" ->
        response_header forwarded "X-Request-ID" = Some Demo.cid).
Proof.
  intros H.
  specialize (H (Cases.resetting "other" [Demo.start []])
                (mkWorld (Some "other") []
                   [Demo.Sent (Demo.start [("x-request-id", "other")])])
                (Demo.start [("x-request-id", "other")])
                eq_refl (or_introl eq_refl) eq_refl).
  discriminate H.
Qed.

(** ** The exposed-headers declaration *)

(** C1 on the code.  The default middleware answers a request carrying a
    valid ID; the message that starts the response leaves the wrapper
    with the correlation header added and nothing else changed.  A
    declaration "test1, test2" of the inner handler is forwarded as it
    is, and no declaration is made where the handler made none. *)
Theorem expose_headers_not_declared :
  call (Demo.default_app [Demo.start [("access-control-expose-headers", "test1, test2")]])
       (Demo.request [("x-request-id", Demo.cid)]) tt Demo.wire Demo.idle
  = (Ok tt,
     mkWorld (Some Demo.cid) []
       [Demo.Handled (Demo.request [("x-request-id", Demo.cid)]);
        Demo.Sent (Demo.start [("access-control-expose-headers", "test1, test2");
                               ("x-request-id", Demo.cid)])])
  /\ call (Demo.default_app [Demo.start []])
          (Demo.request [("x-request-id", Demo.cid)]) tt Demo.wire Demo.idle
     = (Ok tt,
        mkWorld (Some Demo.cid) []
          [Demo.Handled (Demo.request [("x-request-id", Demo.cid)]);
           Demo.Sent (Demo.start [("x-request-id", Demo.cid)])])
  /\ Starlette.get [("access-control-expose-headers", "test1, test2");
                    ("x-request-id", Demo.cid)] "Access-Control-Expose-Headers"
     = Some "test1, test2"
  /\ Starlette.get [("x-request-id", Demo.cid)] "Access-Control-Expose-Headers" = None.
Proof. repeat split. Qed.

(* ================================================================== *)
(** * Further properties of the middleware *)

Section FurtherRequestPath.

Context {Ext Other Receive : Type}.
Implicit Types (self : CorrelationIdMiddleware Ext Other Receive)
               (scope : Scope Other) (receive : Receive) (send : Send Ext Other)
               (message : Message Other) (w s : World Ext).

(** X1. The header name counts up to case: a middleware configured with
    another spelling of the same name, in capitals or not, computes the
    same thing on every scope. *)
Theorem header_name_case_insensitive self (name : string) scope receive send :
  Py.lower name = Py.lower (header_name self) ->
  call (with_header_name self name) scope receive send = call self scope receive send.
Proof.
  intros H.
  unfold call, resolve_id, transform_id, update_request_headers, handle_outgoing_request,
    outgoing_message, Starlette.get, Starlette.getitem, Starlette.setitem, Starlette.append.
  cbn [with_header_name app header_name update_request_header generator validator
         transformer hooks].
  rewrite H. reflexivity.
Qed.

Lemma setitem_absent (l : Starlette.RawHeaders) (key value : string) :
  Starlette.find_key l (Py.lower key) = None ->
  Starlette.setitem l key value = (l ++ [(Py.lower key, value)])%list.
Proof.
  rewrite StarletteFacts.setitem_overwrite. generalize (Py.lower key) as k. intros k.
  induction l as [|[k' v'] l IH]; simpl; [reflexivity|].
  destruct (k' =? k); [discriminate|]. intros H. rewrite (IH H). reflexivity.
Qed.

Lemma overwrite_first (p r : Starlette.RawHeaders) (k old v : string) :
  Starlette.find_key p k = None ->
  Starlette.overwrite k v (p ++ (k, old) :: r)%list
  = (p ++ (k, v) :: Starlette.remove_key k r)%list.
Proof.
  induction p as [|[k' v'] p IH]; simpl.
  - rewrite String.eqb_refl. reflexivity.
  - destruct (k' =? k); [discriminate|]. intros H. rewrite (IH H). reflexivity.
Qed.

(** X2. A request without the configured header reaches the inner
    handler with the generated, transformed ID as one more header at the
    end of its header list; the headers the client sent stay before it. *)
Theorem missing_header_added_last self scope receive send w generated w1 final w2 w3 :
  scope_type scope = "http" ->
  Starlette.find_key (scope_headers scope) (Py.lower (header_name self)) = None ->
  update_request_header self = true ->
  generator self w = (Ok generated, w1) ->
  transform_id self generated w1 = (Ok final, w2) ->
  call_hooks (hooks self) final (published final w2) = (Ok tt, w3) ->
  call self scope receive send w
  = app self
      (mkScope (scope_type scope)
         (scope_headers scope ++ [(Py.lower (header_name self), final)])%list
         (scope_other scope))
      receive (handle_outgoing_request self send) w3.
Proof.
  intros Hhttp Habs Hupd Hgen Htr Hhooks.
  assert (Hin : inbound_value self scope = None).
  { unfold inbound_value, Starlette.get, Starlette.getitem.
    rewrite StarletteFacts.lower_idempotent, Habs. reflexivity. }
  rewrite (call_http_ok self scope receive send w generated w1 final w2 w3 Hhttp);
    try assumption.
  - rewrite Hin. unfold update_request_headers. rewrite Hupd. cbn [differs andb].
    rewrite (setitem_absent _ _ _ Habs). reflexivity.
  - rewrite Hin. exact Hgen.
Qed.

(** X3. Where the configured header stands in the request, a final ID
    that differs from its value takes the place of the first entry of
    that name; the entries before it stay, those after it stay in their
    order but for further entries of that name, which are removed. *)
Theorem present_header_replaced_in_place self scope receive send w
    (before after : Starlette.RawHeaders) (old : string) resolved w1 final w2 w3 :
  scope_type scope = "http" ->
  scope_headers scope = (before ++ (Py.lower (header_name self), old) :: after)%list ->
  Starlette.find_key before (Py.lower (header_name self)) = None ->
  update_request_header self = true ->
  final <> old ->
  resolve_id self (Some old) w = (Ok resolved, w1) ->
  transform_id self resolved w1 = (Ok final, w2) ->
  call_hooks (hooks self) final (published final w2) = (Ok tt, w3) ->
  call self scope receive send w
  = app self
      (mkScope (scope_type scope)
         (before ++ (Py.lower (header_name self), final)
            :: Starlette.remove_key (Py.lower (header_name self)) after)%list
         (scope_other scope))
      receive (handle_outgoing_request self send) w3.
Proof.
  intros Hhttp Hhs Hbefore Hupd Hne Hres Htr Hhooks.
  assert (Hin : inbound_value self scope = Some old).
  { unfold inbound_value, Starlette.get, Starlette.getitem.
    rewrite StarletteFacts.lower_idempotent, Hhs.
    generalize (Py.lower (header_name self)) as k, Hbefore. intros k.
    clear. induction before as [|[k' v'] p IH]; simpl.
    - rewrite String.eqb_refl. reflexivity.
    - destruct (k' =? k); [discriminate|]. exact IH. }
  rewrite (call_http_ok self scope receive send w resolved w1 final w2 w3 Hhttp);
    try assumption.
  - rewrite Hin. unfold update_request_headers. rewrite Hupd.
    assert (D : differs final (Some old) = true) by (apply differs_true; congruence).
    rewrite D. cbn [andb].
    rewrite StarletteFacts.setitem_overwrite, Hhs, (overwrite_first _ _ _ _ _ Hbefore).
    reflexivity.
  - rewrite Hin. exact Hres.
Qed.

(** X4. Whatever the middleware writes into the request headers, a
    lookup under any other header name gives what it gave before. *)
Theorem other_request_headers_kept self scope (header_value : option string)
    (id_value other : string) :
  Py.lower other <> Py.lower (header_name self) ->
  Starlette.get
    (scope_headers (update_request_headers self scope header_value id_value)) other
  = Starlette.get (scope_headers scope) other.
Proof.
  intros H. unfold update_request_headers.
  destruct (differs id_value header_value && update_request_header self);
    [|reflexivity].
  cbn [scope_headers]. unfold Starlette.get, Starlette.getitem.
  rewrite StarletteFacts.setitem_overwrite.
  rewrite StarletteFacts.find_key_overwrite_other by exact H. reflexivity.
Qed.

(** X5. An exception of the validator is the outcome of the request: the
    generator is not consulted, nothing is logged or published, no hook
    and no inner handler runs. *)
Theorem validator_failure_propagates self scope receive send w
    (found : string) validate e w1 :
  scope_type scope = "http" ->
  inbound_value self scope = Some found -> found <> "" ->
  validator self = Some validate ->
  validate found w = (Raise e, w1) ->
  forall inner gen,
    call (with_generator (with_app self inner) gen) scope receive send w = (Raise e, w1).
Proof.
  intros Hhttp Hin Hne Hv Hr inner gen.
  apply call_resolve_raises; [exact Hhttp|].
  change (inbound_value (with_generator (with_app self inner) gen) scope)
    with (inbound_value self scope).
  rewrite Hin. destruct found as [|c found]; [contradiction|].
  unfold resolve_id. cbn [with_generator with_app validator]. rewrite Hv.
  apply bind_raise. exact Hr.
Qed.

(** X6. The hooks run in the order of the list, each in the world the
    one before left: no hook is no step, one hook is that hook called
    with the ID, and a list is its first part and then, where that
    returned, the rest. *)
Theorem hooks_run_in_order (hook : Hook Ext) (before after : list (Hook Ext))
    (id_value : string) w :
  call_hooks [] id_value w = (Ok tt, w)
  /\ call_hooks [hook] id_value w = hook id_value w
  /\ call_hooks (before ++ after) id_value w
     = (call_hooks before id_value ;; call_hooks after id_value) w.
Proof.
  split; [reflexivity|]. split.
  - cbn [call_hooks]. unfold bind, ret.
    destruct (hook id_value w) as [[[]|e] w1]; reflexivity.
  - revert w. induction before as [|first before IH]; intros w; [reflexivity|].
    cbn [List.app call_hooks]. unfold bind in *.
    destruct (first id_value w) as [[[]|e] w1]; [apply IH|reflexivity].
Qed.

(** X7. With hooks that leave the context slot alone, the inner handler
    starts in a world whose context holds the final ID, and so does
    whoever catches the exception of a hook. *)
Theorem context_published_to_handler self scope receive send w resolved w1 final w2 r w3 :
  scope_type scope = "http" ->
  Forall keeps_context (hooks self) ->
  resolve_id self (inbound_value self scope) w = (Ok resolved, w1) ->
  transform_id self resolved w1 = (Ok final, w2) ->
  call_hooks (hooks self) final (published final w2) = (r, w3) ->
  correlation_id w3 = Some final
  /\ call self scope receive send w
     = match r with
       | Ok _ =>
           app self (update_request_headers self scope (inbound_value self scope) final)
               receive (handle_outgoing_request self send) w3
       | Raise e => (Raise e, w3)
       end.
Proof.
  intros Hhttp Hk Hres Htr Hhooks. split.
  - rewrite (call_hooks_keep_context _ _ _ _ _ Hk Hhooks). reflexivity.
  - destruct r as [[]|e].
    + apply (call_http_ok self scope receive send w resolved w1 final w2 w3); assumption.
    + apply (call_hooks_raise self scope receive send w resolved w1 final w2 e w3);
        assumption.
Qed.


End FurtherRequestPath.

Section FurtherResponsePath.

Context {Ext Other Receive : Type}.
Implicit Types (self : CorrelationIdMiddleware Ext Other Receive)
               (env : Environment Ext)
               (scope : Scope Other) (receive : Receive) (send : Send Ext Other)
               (message : Message Other) (w s : World Ext).

Lemma find_key_app (l : Starlette.RawHeaders) (k v : string) :
  Starlette.find_key (l ++ [(k, v)])%list k
  = match Starlette.find_key l k with
    | Some v' => Some v'
    | None => Some v
    end.
Proof.
  induction l as [|[k' v'] l IH]; simpl.
  - rewrite String.eqb_refl. reflexivity.
  - destruct (k' =? k); [reflexivity|exact IH].
Qed.

(** X9. A response that carries headers, the correlation header among
    them, keeps its own in front of the one the wrapper adds: a lookup
    by name in what is forwarded gives the application's own value, and
    the ID of the context only where the application set none. *)
Theorem application_header_comes_first self send message w (cid : string)
    (headers : Starlette.RawHeaders) :
  message_type message = "http.response.start" ->
  message_headers message = Some headers ->
  correlation_id w = Some cid -> cid <> "" ->
  exists forwarded,
    handle_outgoing_request self send message w = send forwarded w
    /\ message_headers forwarded <> None
    /\ response_header forwarded (header_name self)
       = match Starlette.get headers (header_name self) with
         | Some own => Some own
         | None => Some cid
         end.
Proof.
  intros Ht Hh Hc Hne.
  exists (with_headers message (headers ++ [(Py.lower (header_name self), cid)])%list).
  split; [|split].
  - exact (handle_outgoing_start self send message w cid headers Ht Hc Hne Hh).
  - discriminate.
  - unfold response_header, with_headers, Starlette.get, Starlette.getitem.
    cbn [message_headers]. rewrite find_key_app.
    destruct (Starlette.find_key headers (Py.lower (header_name self))); reflexivity.
Qed.

(** X10. An [ImportError] that [load_correlation_ids] itself raises is
    taken for a missing package: construction goes on in the world the
    loader left and registers the Sentry hook as usual. *)
Theorem import_error_of_loader_swallowed env
    (fields : CorrelationIdMiddleware Ext Other Receive) w load (name : string) w' :
  load_correlation_ids env = Some load ->
  load w = (Raise (ImportError name), w') ->
  post_init env fields w
  = (Ok (with_hooks fields (hooks fields ++ optional_hooks env)%list), w').
Proof.
  intros Hl Hr. unfold post_init, bind, except_ImportError, optional_hooks.
  rewrite Hl, Hr. destruct (set_transaction_id env); [reflexivity|].
  rewrite app_nil_r, with_hooks_same. reflexivity.
Qed.

(** X11. A final ID that is the empty text is published and written
    into the request like any other, but never echoed: with hooks that
    leave the context alone, the wrapper forwards every message as it
    is. *)
Theorem empty_id_not_echoed self scope receive send w resolved w1 w2 w3 :
  scope_type scope = "http" ->
  Forall keeps_context (hooks self) ->
  resolve_id self (inbound_value self scope) w = (Ok resolved, w1) ->
  transform_id self resolved w1 = (Ok "", w2) ->
  call_hooks (hooks self) "" (published "" w2) = (Ok tt, w3) ->
  call self scope receive send w
  = app self (update_request_headers self scope (inbound_value self scope) "")
        receive (handle_outgoing_request self send) w3
  /\ correlation_id w3 = Some ""
  /\ forall message, handle_outgoing_request self send message w3 = send message w3.
Proof.
  intros Hhttp Hk Hres Htr Hhooks.
  assert (C : correlation_id w3 = Some "")
    by (rewrite (call_hooks_keep_context _ _ _ _ _ Hk Hhooks); reflexivity).
  split; [|split].
  - apply (call_http_ok self scope receive send w resolved w1 "" w2 w3); assumption.
  - exact C.
  - intros message. apply handle_outgoing_no_id. right. exact C.
Qed.

(** X12. The wrapper echoes what the context holds when the response
    starts, not what the middleware resolved: after application code has
    set another ID, that ID is the header value added to a message that
    carries headers. *)
Theorem context_reset_changes_echo self send message w (other : string)
    (headers : Starlette.RawHeaders) :
  message_type message = "http.response.start" ->
  message_headers message = Some headers ->
  other <> "" ->
  (correlation_id_set other ;; handle_outgoing_request self send message) w
  = send (mkMessage (message_type message)
            (Some (headers ++ [(Py.lower (header_name self), other)])%list)
            (message_other message))
         (mkWorld (Some other) (records w) (ext w)).
Proof.
  intros Ht Hh Hne. unfold bind at 1. cbn [correlation_id_set].
  apply handle_outgoing_start; [exact Ht|reflexivity|exact Hne|exact Hh].
Qed.

End FurtherResponsePath.

(* ================================================================== *)
(** * Further properties of the default validator and generator *)

Module ValidatorFacts.
Import Py.

Lemma clean_char_facts (c : ascii) :
  clean_char c = true ->
  is_ascii c = true /\ Ascii.eqb c "u" = false /\ Ascii.eqb c "-" = false
  /\ mem_char c "{}" = false.
Proof.
  unfold clean_char. intros H. apply andb_true_iff in H. destruct H as [A H].
  apply negb_true_iff in H. cbn [mem_char] in H.
  repeat (apply orb_false_iff in H; destruct H as [? H]).
  cbn [mem_char]. repeat split; try assumption.
  apply orb_false_iff. split; [assumption|]. apply orb_false_iff. split; assumption.
Qed.

Lemma hex_is_clean (c : ascii) : is_hex c = true -> clean_char c = true.
Proof.
  intros H. destruct (PyFacts.hex_char c H) as [U [M [B [_ [A _]]]]].
  unfold clean_char. rewrite A. cbn [mem_char andb]. rewrite U, M.
  cbn [mem_char] in B. rewrite B. reflexivity.
Qed.

Lemma hex_text_clean (s : string) : hex_text s = true -> clean_text s = true.
Proof. unfold hex_text, clean_text. apply PyFacts.all_chars_impl. exact hex_is_clean. Qed.

Lemma clean_text_app (s t : string) :
  clean_text (s ++ t) = clean_text s && clean_text t.
Proof. apply PyFacts.all_chars_app. Qed.

(** The clean-up leaves a clean text as it is. *)
Lemma digits_of_clean (s : string) : clean_text s = true -> digits_of s = s.
Proof.
  intros H. unfold digits_of.
  assert (U : all_chars (fun c => negb (Ascii.eqb c "u")) s = true).
  { revert H. apply PyFacts.all_chars_impl. intros c Hc.
    destruct (clean_char_facts c Hc) as [_ [E _]]. rewrite E. reflexivity. }
  assert (M : all_chars (fun c => negb (Ascii.eqb c "-")) s = true).
  { revert H. apply PyFacts.all_chars_impl. intros c Hc.
    destruct (clean_char_facts c Hc) as [_ [_ [E _]]]. rewrite E. reflexivity. }
  assert (B : all_chars (fun c => negb (mem_char c "{}")) s = true).
  { revert H. apply PyFacts.all_chars_impl. intros c Hc.
    destruct (clean_char_facts c Hc) as [_ [_ [_ E]]]. rewrite E. reflexivity. }
  rewrite (PyFacts.replace_from_absent "u" "rn:" "" s U : replace "urn:" "" s = s).
  rewrite (PyFacts.replace_from_absent "u" "uid:" "" s U : replace "uuid:" "" s = s).
  assert (S : strip "{}" s = s).
  { unfold strip.
    assert (L : lstrip "{}" s = s).
    { destruct s as [|c s]; [reflexivity|]. apply PyFacts.lstrip_head.
      cbn [all_chars] in B. apply andb_true_iff in B. destruct B as [Bc _].
      apply negb_true_iff in Bc. exact Bc. }
    rewrite L. apply PyFacts.rstrip_kept. exact B. }
  rewrite S.
  exact (PyFacts.replace_from_absent "-" "" "" s M).
Qed.

Lemma to_ascii_clean (s : string) : clean_text s = true -> to_ascii s = s.
Proof.
  intros H. unfold to_ascii.
  assert (A : all_chars is_ascii s = true).
  { revert H. apply PyFacts.all_chars_impl. intros c Hc.
    exact (proj1 (clean_char_facts c Hc)). }
  rewrite A. reflexivity.
Qed.

(** The digit loop on digits followed by something that is no digit. *)
Lemma scan_hex_prefix (h rest : string) (seen : bool) (acc : Z) :
  hex_text h = true -> (0 <= acc)%Z ->
  match rest with
  | EmptyString => True
  | String c _ => is_hex c = false /\ is_underscore c = false
  end ->
  exists v,
    scan_digits (h ++ rest) false seen acc
    = Some (v, seen || negb (length h =? 0)%nat, rest)
    /\ (acc * 16 ^ Z.of_nat (length h) <= v < (acc + 1) * 16 ^ Z.of_nat (length h))%Z.
Proof.
  unfold hex_text. intros H Hacc Hrest. revert seen acc H Hacc.
  induction h as [|c h IH]; intros seen acc H Hacc.
  - exists acc. cbn [append length Nat.eqb negb]. rewrite orb_false_r.
    split; [|change (16 ^ Z.of_nat 0)%Z with 1%Z; lia].
    destruct rest as [|c rest]; [reflexivity|].
    destruct Hrest as [Hh Hu]. cbn [scan_digits]. rewrite Hu.
    unfold is_hex in Hh. destruct (hex_digit c); [discriminate|reflexivity].
  - cbn [all_chars] in H. apply andb_true_iff in H. destruct H as [Hc Hs].
    destruct (PyFacts.hex_char c Hc) as [_ [_ [_ [Hu [_ [_ [_ [_ [_ [d [Hd Hr]]]]]]]]]]].
    cbn [append scan_digits]. rewrite Hu, Hd.
    destruct (IH true (16 * acc + d)%Z Hs ltac:(lia)) as [v [Hv Hb]].
    exists v. rewrite Hv. cbn [length Nat.eqb negb orb]. rewrite orb_true_r.
    split; [reflexivity|].
    rewrite Nat2Z.inj_succ, Z.pow_succ_r by lia.
    assert (P : (0 < 16 ^ Z.of_nat (length h))%Z) by (apply Z.pow_pos_nonneg; lia).
    nia.
Qed.

(** [PyLong_FromString] once the sign and the prefix are taken: digits,
    then white space up to the end. *)
Lemma long_from_string16_digits (s s1 h trail : string) (sign : Z) :
  take_sign (skip_spaces s) = (sign, s1) ->
  take_prefix16 s1 = h ++ trail ->
  hex_text h = true -> h <> "" ->
  all_chars c_isspace trail = true ->
  exists v, long_from_string16 s = Some (sign * v)%Z
            /\ (0 <= v < 16 ^ Z.of_nat (length h))%Z.
Proof.
  intros Hs Hp Hh Hne Ht. unfold long_from_string16. rewrite Hs, Hp.
  assert (U : starts_with_underscore (h ++ trail) = false).
  { destruct h as [|c h]; [contradiction|]. cbn [append starts_with_underscore].
    unfold hex_text in Hh. cbn [all_chars] in Hh. apply andb_true_iff in Hh.
    destruct Hh as [Hc _].
    destruct (PyFacts.hex_char c Hc) as [_ [_ [_ [Hu _]]]]. exact Hu. }
  rewrite U.
  assert (R : match trail with
              | EmptyString => True
              | String c _ => is_hex c = false /\ is_underscore c = false
              end).
  { destruct trail as [|c trail]; [exact I|].
    cbn [all_chars] in Ht. apply andb_true_iff in Ht. destruct Ht as [Hc _].
    clear - Hc. destruct c as [[] [] [] [] [] [] [] []]; vm_compute in Hc;
      try discriminate Hc; split; reflexivity. }
  destruct (scan_hex_prefix h trail false 0 Hh ltac:(lia) R) as [v [Hv Hb]].
  rewrite Hv.
  assert (N : negb (length h =? 0)%nat = true) by (destruct h; [contradiction|reflexivity]).
  rewrite N. cbn [orb].
  assert (K : skip_spaces trail = "").
  { clear - Ht. induction trail as [|c trail IH]; [reflexivity|].
    cbn [all_chars] in Ht. apply andb_true_iff in Ht. destruct Ht as [Hc Ht].
    cbn [skip_spaces]. rewrite Hc. exact (IH Ht). }
  rewrite K. exists v. split; [reflexivity|lia].
Qed.

(** A text whose integer is read and is below 2^128 is valid once it is
    32 characters long and clean. *)
Lemma valid_of_int16 (s : string) (v : Z) :
  clean_text s = true -> length s = 32 ->
  int16 s = Some v -> (0 <= v < 2 ^ 128)%Z ->
  is_valid_uuid4 s = Ok true.
Proof.
  intros Hc Hl Hi Hv. unfold is_valid_uuid4, Uuid.UUID_init. cbv zeta.
  fold (digits_of s). rewrite (digits_of_clean s Hc), Hl. cbn [Nat.eqb negb].
  rewrite Hi. change (Z.shiftl 1 128) with (2 ^ 128)%Z.
  destruct (Z.leb_spec 0 v) as [_|F]; [|lia].
  destruct (Z.ltb_spec v (2 ^ 128)) as [_|F]; [|lia].
  reflexivity.
Qed.

Lemma invalid_of_int16 (s : string) :
  clean_text s = true -> int16 s = None -> is_valid_uuid4 s = Ok false.
Proof.
  intros Hc Hi. unfold is_valid_uuid4, Uuid.UUID_init. cbv zeta.
  fold (digits_of s). rewrite (digits_of_clean s Hc), Hi.
  destruct (negb (length s =? 32)%nat); reflexivity.
Qed.

Lemma pow16_le (n : nat) : n <= 32 -> (16 ^ Z.of_nat n <= 2 ^ 128)%Z.
Proof.
  intros H. change (2 ^ 128)%Z with (16 ^ Z.of_nat 32)%Z.
  apply Z.pow_le_mono_r; lia.
Qed.

End ValidatorFacts.

(** ** What the default validator accepts and rejects *)

Section ValidatorProperties.

Import Py.

(** X13. A text of hexadecimal digits is valid exactly when it has 32
    digits: the empty text, 31 digits and 33 digits are rejected. *)
Theorem digits_valid_iff_32 (h : string) :
  hex_text h = true -> (is_valid_uuid4 h = Ok true <-> length h = 32).
Proof.
  intros H. split.
  - intros V. destruct (Nat.eqb_spec (length h) 32) as [E|N]; [exact E|].
    unfold is_valid_uuid4, Uuid.UUID_init in V. cbv zeta in V.
    fold (digits_of h) in V. rewrite (UuidFacts.digits_of_hex_text h H) in V.
    apply Nat.eqb_neq in N. rewrite N in V. discriminate V.
  - intros L. apply (UuidFacts.is_valid_uuid4_digits h h);
      [apply UuidFacts.digits_of_hex_text; exact H|exact H|exact L].
Qed.

Lemma take_prefix16_digits_then (h : string) (c : ascii) (rest : string) :
  hex_text h = true -> h <> "" ->
  (h = "0" -> Ascii.eqb c "x" || Ascii.eqb c "X" = false) ->
  take_prefix16 (h ++ String c rest) = h ++ String c rest.
Proof.
  intros H Hne Hx. destruct h as [|a [|b h]]; [contradiction| |].
  - cbn [append]. unfold take_prefix16.
    destruct (Ascii.eqb_spec a "0") as [->|N]; [|reflexivity].
    rewrite (Hx eq_refl). reflexivity.
  - cbn [append]. unfold hex_text in H. cbn [all_chars] in H.
    apply andb_true_iff in H. destruct H as [_ H].
    apply andb_true_iff in H. destruct H as [Hb _].
    destruct (PyFacts.hex_char b Hb) as [_ [_ [_ [_ [_ [_ [_ [H1 [H2 _]]]]]]]]].
    unfold take_prefix16. rewrite H1, H2, andb_false_r. reflexivity.
Qed.

(** X14. Digits followed by a stray character are rejected, whatever
    clean text comes after: a letter beyond [f], a dot, a colon..., and
    also an [x] but in the prefix ["0x"].  So are the texts ["1x1x..."]
    and 31 digits with an [x] of the test suite. *)
Theorem stray_character_rejected (h : string) (c : ascii) (rest : string) :
  hex_text h = true -> h <> "" ->
  stray c = true ->
  clean_text rest = true ->
  (h = "0" -> Ascii.eqb c "x" || Ascii.eqb c "X" = false) ->
  is_valid_uuid4 (h ++ String c rest) = Ok false.
Proof.
  intros H Hne Hs Hr Hx.
  unfold stray in Hs. apply andb_true_iff in Hs. destruct Hs as [Hc Hs].
  apply negb_true_iff in Hs.
  apply orb_false_iff in Hs. destruct Hs as [Hs Hsp].
  apply orb_false_iff in Hs. destruct Hs as [Hh Hu].
  assert (C : clean_text (h ++ String c rest) = true).
  { rewrite ValidatorFacts.clean_text_app, (ValidatorFacts.hex_text_clean h H).
    unfold clean_text. cbn [all_chars]. rewrite Hc. exact Hr. }
  apply ValidatorFacts.invalid_of_int16; [exact C|].
  unfold int16. rewrite (ValidatorFacts.to_ascii_clean _ C).
  unfold long_from_string16.
  destruct h as [|a h]; [contradiction|].
  pose proof H as H'. unfold hex_text in H'. cbn [all_chars] in H'.
  apply andb_true_iff in H'. destruct H' as [Ha _].
  destruct (PyFacts.hex_char a Ha) as [_ [Hm [_ [Hua [_ [Hsa [Hp _]]]]]]].
  cbn [append skip_spaces]. rewrite Hsa. cbn [take_sign]. rewrite Hp, Hm.
  change (String a (h ++ String c rest)) with (String a h ++ String c rest).
  rewrite (take_prefix16_digits_then (String a h) c rest H Hne Hx).
  cbn [append starts_with_underscore]. rewrite Hua.
  change (String a (h ++ String c rest)) with (String a h ++ String c rest).
  destruct (ValidatorFacts.scan_hex_prefix (String a h) (String c rest) false 0 H
              ltac:(lia) (conj Hh Hu)) as [v [Hv _]].
  rewrite Hv. cbn [length Nat.eqb negb orb skip_spaces]. rewrite Hsp. reflexivity.
Qed.

Lemma valid_of_digits (s s1 h trail : string) (sign : Z) :
  clean_text s = true -> length s = 32 ->
  take_sign (skip_spaces s) = (sign, s1) -> sign = 1%Z ->
  take_prefix16 s1 = h ++ trail ->
  hex_text h = true -> h <> "" -> length h <= 32 ->
  all_chars c_isspace trail = true ->
  is_valid_uuid4 s = Ok true.
Proof.
  intros Hc Hl Hs -> Hp Hh Hne Hle Ht.
  destruct (ValidatorFacts.long_from_string16_digits s s1 h trail 1 Hs Hp Hh Hne Ht)
    as [v [Hv Hb]].
  apply (ValidatorFacts.valid_of_int16 s (1 * v)); [exact Hc|exact Hl| |].
  - unfold int16. rewrite (ValidatorFacts.to_ascii_clean s Hc). exact Hv.
  - pose proof (ValidatorFacts.pow16_le (length h) Hle). lia.
Qed.

(** X15. The default validator also accepts texts of 32 characters that
    are no UUID text at all, because [int(text, 16)] reads them: 30
    digits behind ["0x"] or ["0X"], and 31 digits behind a plus sign,
    behind a blank or before a blank. *)
Theorem validator_accepts_integer_literals (h : string) :
  hex_text h = true ->
  (length h = 30 ->
     is_valid_uuid4 ("0x" ++ h) = Ok true /\ is_valid_uuid4 ("0X" ++ h) = Ok true)
  /\ (length h = 31 ->
        is_valid_uuid4 ("+" ++ h) = Ok true
        /\ is_valid_uuid4 (" " ++ h) = Ok true
        /\ is_valid_uuid4 (h ++ " ") = Ok true).
Proof.
  intros H.
  assert (C : clean_text h = true) by (apply ValidatorFacts.hex_text_clean; exact H).
  split.
  - intros L.
    assert (Hne : h <> "") by (intros ->; discriminate L).
    assert (Hu : starts_with_underscore h = false).
    { destruct h as [|c h]; [reflexivity|]. unfold hex_text in H. cbn [all_chars] in H.
      apply andb_true_iff in H. destruct H as [Hc _].
      destruct (PyFacts.hex_char c Hc) as [_ [_ [_ [U _]]]]. exact U. }
    split.
    + apply (valid_of_digits ("0x" ++ h) ("0x" ++ h) h "" 1);
        try reflexivity; try assumption; try lia;
        try (rewrite ValidatorFacts.clean_text_app, C; reflexivity);
        try (rewrite PyFacts.length_app, L; reflexivity).
      * rewrite PyFacts.app_empty_r. cbn [append]. unfold take_prefix16.
        cbn [Ascii.eqb Bool.eqb andb orb].
        destruct h as [|c h]; [reflexivity|].
        cbn [starts_with_underscore] in Hu. rewrite Hu. reflexivity.
    + apply (valid_of_digits ("0X" ++ h) ("0X" ++ h) h "" 1);
        try reflexivity; try assumption; try lia;
        try (rewrite ValidatorFacts.clean_text_app, C; reflexivity);
        try (rewrite PyFacts.length_app, L; reflexivity).
      * rewrite PyFacts.app_empty_r. cbn [append]. unfold take_prefix16.
        cbn [Ascii.eqb Bool.eqb andb orb].
        destruct h as [|c h]; [reflexivity|].
        cbn [starts_with_underscore] in Hu. rewrite Hu. reflexivity.
  - intros L.
    assert (Hne : h <> "") by (intros ->; discriminate L).
    assert (P : take_prefix16 h = h) by (apply PyFacts.take_prefix16_hex_text; exact H).
    assert (K : skip_spaces h = h /\ take_sign h = (1%Z, h)).
    { destruct h as [|c h]; [contradiction|]. unfold hex_text in H. cbn [all_chars] in H.
      apply andb_true_iff in H. destruct H as [Hc _].
      destruct (PyFacts.hex_char c Hc) as [_ [Hm [_ [_ [_ [Hs [Hp _]]]]]]].
      cbn [skip_spaces take_sign]. rewrite Hs, Hp, Hm. split; reflexivity. }
    destruct K as [K1 K2].
    split; [|split].
    + apply (valid_of_digits ("+" ++ h) h h "" 1);
        try reflexivity; try assumption; try lia;
        try (rewrite ValidatorFacts.clean_text_app, C; reflexivity);
        try (rewrite PyFacts.length_app, L; reflexivity).
      * rewrite PyFacts.app_empty_r. exact P.
    + apply (valid_of_digits (" " ++ h) h h "" 1);
        try reflexivity; try assumption; try lia;
        try (rewrite ValidatorFacts.clean_text_app, C; reflexivity);
        try (rewrite PyFacts.length_app, L; reflexivity).
      * cbn [append skip_spaces]. change (c_isspace " ") with true. cbn iota.
        rewrite K1. exact K2.
      * rewrite PyFacts.app_empty_r. exact P.
    + assert (K3 : skip_spaces (h ++ " ") = h ++ " " /\ take_sign (h ++ " ") = (1%Z, h ++ " ")).
      { destruct h as [|c h]; [contradiction|]. unfold hex_text in H. cbn [all_chars] in H.
        apply andb_true_iff in H. destruct H as [Hc _].
        destruct (PyFacts.hex_char c Hc) as [_ [Hm [_ [_ [_ [Hs [Hp _]]]]]]].
        cbn [append skip_spaces take_sign]. rewrite Hs, Hp, Hm. split; reflexivity. }
      destruct K3 as [K3 K4].
      apply (valid_of_digits (h ++ " ") (h ++ " ") h " " 1);
        try reflexivity; try assumption; try lia;
        try (rewrite ValidatorFacts.clean_text_app, C; reflexivity);
        try (rewrite PyFacts.length_app, L; reflexivity).
      * rewrite K3. exact K4.
      * destruct h as [|a [|b h]]; [contradiction|discriminate L|].
        cbn [append]. unfold hex_text in H. cbn [all_chars] in H.
        apply andb_true_iff in H. destruct H as [_ H].
        apply andb_true_iff in H. destruct H as [Hb _].
        destruct (PyFacts.hex_char b Hb) as [_ [_ [_ [_ [_ [_ [_ [H1 [H2 _]]]]]]]]].
        unfold take_prefix16. rewrite H1, H2, andb_false_r. reflexivity.
Qed.

End ValidatorProperties.

(** ** The default generator *)

Module GeneratorFacts.
Import Uuid4.

Lemma hex_char_of_lower (d : Z) : is_lower_hex (hex_char_of d) = true.
Proof.
  destruct d as [|p|p]; try reflexivity.
  repeat (destruct p as [p|p|]; try reflexivity).
Qed.

Lemma hex_digits_lower (fuel : nat) (i : Z) (acc : string) :
  Py.all_chars is_lower_hex acc = true ->
  Py.all_chars is_lower_hex (hex_digits fuel i acc) = true.
Proof.
  revert i acc. induction fuel as [|fuel IH]; intros i acc H; cbn [hex_digits].
  - exact H.
  - destruct (i =? 0)%Z; [exact H|].
    apply IH. cbn [Py.all_chars]. rewrite hex_char_of_lower. exact H.
Qed.

Lemma hex_digits_length (fuel : nat) (i : Z) (acc : string) (k : nat) :
  (0 <= i < 16 ^ Z.of_nat k)%Z ->
  length (hex_digits fuel i acc) <= k + length acc.
Proof.
  revert i acc k. induction fuel as [|fuel IH]; intros i acc k H; cbn [hex_digits].
  - lia.
  - destruct (Z.eqb_spec i 0) as [E|N]; [lia|].
    destruct k as [|k]; [change (16 ^ Z.of_nat 0)%Z with 1%Z in H; lia|].
    rewrite Nat2Z.inj_succ, Z.pow_succ_r in H by lia.
    assert (B : (0 <= i / 16 < 16 ^ Z.of_nat k)%Z).
    { split; [apply Z.div_pos; lia|apply Z.div_lt_upper_bound; lia]. }
    pose proof (IH (i / 16)%Z (String (hex_char_of (i mod 16)) acc) k B) as L.
    cbn [length] in L. lia.
Qed.

Lemma zeros_lower (n : nat) : Py.all_chars is_lower_hex (zeros n) = true.
Proof. induction n as [|n IH]; [reflexivity|exact IH]. Qed.

Lemma zeros_length (n : nat) : length (zeros n) = n.
Proof. induction n as [|n IH]; [reflexivity|]. cbn [zeros length]. rewrite IH. reflexivity. Qed.

(** A value below 2^128 is printed with exactly 32 lower-case digits. *)
Lemma format_032x_lower_hex32 (i : Z) :
  (0 <= i < 2 ^ 128)%Z -> lower_hex32 (format_032x i) = true.
Proof.
  intros H. unfold lower_hex32, format_032x. cbv zeta.
  assert (L : length (format_x i) <= 32).
  { unfold format_x. destruct (i =? 0)%Z; [cbn; lia|].
    pose proof (hex_digits_length (S (Z.to_nat (Z.log2 i))) i "" 32 H) as B.
    cbn [length] in B. lia. }
  assert (C : Py.all_chars is_lower_hex (format_x i) = true).
  { unfold format_x. destruct (i =? 0)%Z; [reflexivity|].
    apply hex_digits_lower. reflexivity. }
  apply andb_true_iff. split.
  - apply Nat.eqb_eq. rewrite PyFacts.length_app, zeros_length. lia.
  - rewrite PyFacts.all_chars_app, zeros_lower, C. reflexivity.
Qed.

Local Open Scope Z_scope.

Lemma below_pow2 (x k : Z) :
  0 <= k -> 0 <= x -> (forall n, k <= n -> Z.testbit x n = false) -> x < 2 ^ k.
Proof.
  intros Hk Hx Hb. destruct (Z.eq_dec x 0) as [->|N].
  - apply Z.pow_pos_nonneg; lia.
  - apply Z.log2_lt_pow2; [lia|].
    destruct (Z.lt_ge_cases (Z.log2 x) k) as [L|G]; [exact L|].
    specialize (Hb (Z.log2 x) G).
    rewrite Z.bit_log2 in Hb by lia. discriminate Hb.
Qed.

Lemma above_pow2 (x k n : Z) : 0 <= x < 2 ^ k -> k <= n -> Z.testbit x n = false.
Proof.
  intros H Hn. destruct (Z.eq_dec x 0) as [->|N]; [apply Z.bits_0|].
  apply Z.bits_above_log2; [lia|].
  assert (Z.log2 x < k) by (apply Z.log2_lt_pow2; lia). lia.
Qed.

(** Writing the version keeps a value within 128 bits. *)
Lemma set_version_range (i v : Z) :
  0 <= i < 2 ^ 128 -> 0 <= v < 16 -> 0 <= Uuid.set_version i v < 2 ^ 128.
Proof.
  intros Hi Hv.
  assert (P : 0 <= Uuid.set_version i v).
  { unfold Uuid.set_version. cbv zeta.
    apply Z.lor_nonneg. split; [|apply Z.shiftl_nonneg; lia].
    apply Z.land_nonneg. left.
    apply Z.lor_nonneg. split; [|apply Z.shiftl_nonneg; lia].
    apply Z.land_nonneg. left. lia. }
  split; [exact P|].
  apply below_pow2; [lia|exact P|]. intros n Hn.
  rewrite UuidFacts.set_version_bit by lia.
  rewrite (above_pow2 i 128 n Hi Hn).
  rewrite (above_pow2 (Z.shiftl 0x8000 48) 128 n) by (cbn; lia).
  rewrite (Z.shiftl_spec v 76 n) by lia.
  rewrite (above_pow2 v 4 (n - 76)) by (cbn; lia).
  reflexivity.
Qed.

Lemma int_from_bytes_range (bs : list Byte.byte) :
  0 <= int_from_bytes bs < 256 ^ Z.of_nat (List.length bs).
Proof.
  unfold int_from_bytes.
  assert (G : forall acc, 0 <= acc ->
            acc * 256 ^ Z.of_nat (List.length bs)
            <= fold_left (fun a b => a * 256 + Z.of_N (Byte.to_N b)) bs acc
            < (acc + 1) * 256 ^ Z.of_nat (List.length bs)).
  { induction bs as [|b bs IH]; intros acc Hacc.
    - cbn [fold_left List.length]. change (256 ^ Z.of_nat 0) with 1. lia.
    - cbn [fold_left List.length].
      pose proof (Byte.to_N_bounded b) as Bb.
      specialize (IH (acc * 256 + Z.of_N (Byte.to_N b)) ltac:(lia)).
      rewrite Nat2Z.inj_succ, Z.pow_succ_r by lia.
      assert (Q : 0 < 256 ^ Z.of_nat (List.length bs)) by (apply Z.pow_pos_nonneg; lia).
      nia. }
  specialize (G 0 ltac:(lia)). lia.
Qed.

Lemma UUID_from_bytes_16 (bs : list Byte.byte) :
  List.length bs = 16%nat ->
  UUID_from_bytes bs (Some 4) = Ok (Uuid.mkUUID (Uuid.set_version (int_from_bytes bs) 4))
  /\ 0 <= Uuid.set_version (int_from_bytes bs) 4 < 2 ^ 128.
Proof.
  intros L. pose proof (int_from_bytes_range bs) as R. rewrite L in R.
  change (256 ^ Z.of_nat 16) with (2 ^ 128) in R.
  split; [|apply set_version_range; [exact R|lia]].
  unfold UUID_from_bytes. rewrite L. cbn [Nat.eqb negb]. cbv zeta.
  change (Z.shiftl 1 128) with (2 ^ 128).
  destruct (Z.leb_spec 0 (int_from_bytes bs)) as [_|F]; [|lia].
  destruct (Z.ltb_spec (int_from_bytes bs) (2 ^ 128)) as [_|F]; [|lia].
  reflexivity.
Qed.

End GeneratorFacts.

Section GeneratorProperties.

Context {Ext Other Receive : Type}.

(** X16. What the default generator returns passes the default
    validator: from 16 random bytes [uuid4().hex] makes 32 lower-case
    hexadecimal digits, and the world is the one the random source left.
    A middleware further down the chain therefore reuses the ID. *)
Theorem generated_id_is_valid (urandom : nat -> M Ext (list Byte.byte))
    (w : World Ext) (random_bytes : list Byte.byte) (w' : World Ext) :
  urandom 16 w = (Ok random_bytes, w') ->
  List.length random_bytes = 16 ->
  exists id_value,
    Uuid4.uuid4_hex urandom w = (Ok id_value, w')
    /\ lower_hex32 id_value = true
    /\ is_valid_uuid4 id_value = Ok true
    /\ forall (inner : ASGIApp Ext Other Receive),
         resolve_id (defaults inner (Uuid4.uuid4_hex urandom)) None w = (Ok id_value, w').
Proof.
  intros Hu Hl.
  destruct (GeneratorFacts.UUID_from_bytes_16 random_bytes Hl) as [E R].
  exists (Uuid4.hex (Uuid.mkUUID (Uuid.set_version (Uuid4.int_from_bytes random_bytes) 4))).
  assert (G : Uuid4.uuid4_hex urandom w
              = (Ok (Uuid4.hex (Uuid.mkUUID
                       (Uuid.set_version (Uuid4.int_from_bytes random_bytes) 4))), w')).
  { unfold Uuid4.uuid4_hex. rewrite (bind_ok _ _ _ _ _ Hu).
    unfold bind, lift. rewrite E. reflexivity. }
  assert (X : lower_hex32 (Uuid4.hex (Uuid.mkUUID
                (Uuid.set_version (Uuid4.int_from_bytes random_bytes) 4))) = true).
  { unfold Uuid4.hex. cbn [Uuid.int].
    apply GeneratorFacts.format_032x_lower_hex32. exact R. }
  split; [exact G|]. split; [exact X|]. split.
  - exact (proj1 (lower_hex32_valid _ X)).
  - intros inner. exact G.
Qed.

End GeneratorProperties.

(** ** The further properties on concrete cases *)

(** The header name written in lower case. *)
Lemma header_name_case_insensitive_witness :
  call (with_header_name (Demo.default_app [Demo.start []]) "x-request-id")
       (Demo.request []) tt Demo.wire
  = call (Demo.default_app [Demo.start []]) (Demo.request []) tt Demo.wire.
Proof.
  apply (header_name_case_insensitive (Demo.default_app [Demo.start []]) "x-request-id").
  reflexivity.
Defined.

(** A request with one header and no correlation header. *)
Lemma missing_header_added_last_witness :
  call (Demo.generator_app []) (Demo.request [("accept", "*/*")]) tt Demo.wire Demo.idle
  = app (Demo.generator_app [])
        (Demo.request [("accept", "*/*"); ("x-request-id", "generated")]) tt
        (handle_outgoing_request (Demo.generator_app []) Demo.wire)
        (mkWorld (Some "generated") []
           [Demo.Generated "generated"; Demo.Hooked "generated"]).
Proof.
  exact (missing_header_added_last (Demo.generator_app [])
           (Demo.request [("accept", "*/*")]) tt Demo.wire Demo.idle
           "generated" (mkWorld None [] [Demo.Generated "generated"])
           "generated" (mkWorld None [] [Demo.Generated "generated"])
           (mkWorld (Some "generated") []
              [Demo.Generated "generated"; Demo.Hooked "generated"])
           eq_refl eq_refl eq_refl eq_refl eq_refl eq_refl).
Defined.

(** A rejected value between two other headers, and once more behind. *)
Lemma present_header_replaced_in_place_witness :
  call (Demo.generator_app [])
       (Demo.request [("accept", "*/*"); ("x-request-id", "bad-uuid");
                      ("host", "test"); ("x-request-id", "again")])
       tt Demo.wire Demo.idle
  = app (Demo.generator_app [])
        (Demo.request [("accept", "*/*"); ("x-request-id", "generated"); ("host", "test")])
        tt (handle_outgoing_request (Demo.generator_app []) Demo.wire)
        (mkWorld (Some "generated")
           [mkLogRecord "WARNING" FAILED_VALIDATION_MESSAGE ["bad-uuid"]]
           [Demo.Generated "generated"; Demo.Hooked "generated"]).
Proof.
  apply (present_header_replaced_in_place (Demo.generator_app [])
           (Demo.request [("accept", "*/*"); ("x-request-id", "bad-uuid");
                          ("host", "test"); ("x-request-id", "again")])
           tt Demo.wire Demo.idle
           [("accept", "*/*")] [("host", "test"); ("x-request-id", "again")] "bad-uuid"
           "generated"
           (mkWorld None [mkLogRecord "WARNING" FAILED_VALIDATION_MESSAGE ["bad-uuid"]]
              [Demo.Generated "generated"])
           "generated"
           (mkWorld None [mkLogRecord "WARNING" FAILED_VALIDATION_MESSAGE ["bad-uuid"]]
              [Demo.Generated "generated"]));
    try reflexivity.
  discriminate.
Defined.

(** The lookup of another header after the correlation header was
    rewritten. *)
Lemma other_request_headers_kept_witness :
  Starlette.get
    (scope_headers
       (update_request_headers (Demo.generator_app [])
          (Demo.request [("x-request-id", "bad-uuid"); ("Accept", "*/*")])
          (Some "bad-uuid") "generated"))
    "accept"
  = Starlette.get [("x-request-id", "bad-uuid"); ("Accept", "*/*")] "accept".
Proof.
  apply (other_request_headers_kept (Demo.generator_app [])
           (Demo.request [("x-request-id", "bad-uuid"); ("Accept", "*/*")])
           (Some "bad-uuid") "generated" "accept").
  discriminate.
Defined.

(** A validator that raises. *)
Lemma validator_failure_propagates_witness :
  call (with_generator
          (with_app (Cases.broken_validator_app []) (Demo.responding [Demo.start []]))
          (Demo.fixed "other"))
       (Demo.request [("x-request-id", Demo.cid)]) tt Demo.wire Demo.idle
  = (Raise Demo.boom, Demo.idle).
Proof.
  apply (validator_failure_propagates (Cases.broken_validator_app [])
           (Demo.request [("x-request-id", Demo.cid)]) tt Demo.wire Demo.idle
           Demo.cid (fun _ => raise Demo.boom) Demo.boom Demo.idle);
    try reflexivity.
  discriminate.
Defined.

(** A recording hook and a request with a valid ID. *)
Lemma context_published_to_handler_witness :
  correlation_id (mkWorld (Some Demo.cid) [] [Demo.Hooked Demo.cid] : World Demo.Trace)
  = Some Demo.cid
  /\ call (Demo.generator_app []) (Demo.request [("x-request-id", Demo.cid)]) tt
          Demo.wire Demo.idle
     = app (Demo.generator_app []) (Demo.request [("x-request-id", Demo.cid)]) tt
           (handle_outgoing_request (Demo.generator_app []) Demo.wire)
           (mkWorld (Some Demo.cid) [] [Demo.Hooked Demo.cid]).
Proof.
  apply (context_published_to_handler (Demo.generator_app [])
           (Demo.request [("x-request-id", Demo.cid)]) tt Demo.wire Demo.idle
           Demo.cid Demo.idle Demo.cid Demo.idle (Ok tt)
           (mkWorld (Some Demo.cid) [] [Demo.Hooked Demo.cid]));
    try reflexivity.
  constructor; [|constructor].
  intros a w r w' E. inversion E. reflexivity.
Defined.

(** Two hooks that leave their tags in the trace. *)
Lemma hooks_run_in_order_witness :
  call_hooks [Cases.tagging "first:"; Cases.tagging "second:"] "id" Demo.idle
  = (Ok tt, mkWorld None [] [Demo.Hooked "first:id"; Demo.Hooked "second:id"]).
Proof.
  destruct (hooks_run_in_order (Cases.tagging "first:")
              [Cases.tagging "first:"] [Cases.tagging "second:"] "id" Demo.idle)
    as [_ [_ H]].
  etransitivity; [exact H|]. reflexivity.
Defined.


(** A response on which the application set the correlation header. *)
Lemma application_header_comes_first_witness :
  exists forwarded,
    handle_outgoing_request (Demo.default_app []) Demo.wire
      (Demo.start [("x-request-id", "mine")]) (published Demo.cid Demo.idle)
    = Demo.wire forwarded (published Demo.cid Demo.idle)
    /\ message_headers forwarded <> None
    /\ response_header forwarded "X-Request-ID" = Some "mine".
Proof.
  exact (application_header_comes_first (Demo.default_app []) Demo.wire
           (Demo.start [("x-request-id", "mine")]) (published Demo.cid Demo.idle)
           Demo.cid [("x-request-id", "mine")] eq_refl eq_refl eq_refl
           ltac:(discriminate)).
Defined.

(** Construction where the Celery extension raises [ImportError]. *)
Lemma import_error_of_loader_swallowed_witness :
  post_init Cases.with_broken_celery (Demo.default_app []) Demo.idle
  = (Ok (with_hooks (Demo.default_app []) [Demo.recording_hook]),
     mkWorld None [] [Demo.Hooked "celery"]).
Proof.
  exact (import_error_of_loader_swallowed Cases.with_broken_celery (Demo.default_app [])
           Demo.idle
           (Demo.emit (Demo.Hooked "celery") ;; raise (ImportError "celery"))
           "celery" (mkWorld None [] [Demo.Hooked "celery"]) eq_refl eq_refl).
Defined.

(** A transformer that returns the empty text. *)
Lemma empty_id_not_echoed_witness :
  call (Cases.blanking_app [Demo.start []])
       (Demo.request [("x-request-id", Demo.cid)]) tt Demo.wire Demo.idle
  = (Ok tt,
     mkWorld (Some "") []
       [Demo.Hooked ""; Demo.Handled (Demo.request [("x-request-id", "")]);
        Demo.Sent (Demo.start [])]).
Proof.
  assert (K : Forall keeps_context (hooks (Cases.blanking_app [Demo.start []]))).
  { constructor; [|constructor]. intros a w r w' E. inversion E. reflexivity. }
  destruct (empty_id_not_echoed (Cases.blanking_app [Demo.start []])
              (Demo.request [("x-request-id", Demo.cid)]) tt Demo.wire Demo.idle
              Demo.cid Demo.idle Demo.idle (mkWorld (Some "") [] [Demo.Hooked ""])
              eq_refl K eq_refl eq_refl eq_refl)
    as [H _].
  rewrite H. reflexivity.
Defined.

(** Application code that sets another ID before it answers. *)
Lemma context_reset_changes_echo_witness :
  (correlation_id_set "other" ;;
   handle_outgoing_request (Demo.default_app []) Demo.wire (Demo.start []))
    (published Demo.cid Demo.idle)
  = (Ok tt, mkWorld (Some "other") [] [Demo.Sent (Demo.start [("x-request-id", "other")])]).
Proof.
  rewrite (context_reset_changes_echo (Demo.default_app []) Demo.wire (Demo.start [])
             (published Demo.cid Demo.idle) "other" [] eq_refl eq_refl
             ltac:(discriminate)).
  reflexivity.
Defined.

(** Thirty-one, thirty-two and no digits. *)
Lemma digits_valid_iff_32_witness :
  is_valid_uuid4 "0123456789abcdef0123456789ABCDEF" = Ok true
  /\ is_valid_uuid4 "0123456789abcdef0123456789abcde" <> Ok true
  /\ is_valid_uuid4 "" <> Ok true.
Proof.
  split; [|split].
  - apply (proj2 (digits_valid_iff_32 "0123456789abcdef0123456789ABCDEF" eq_refl)).
    reflexivity.
  - intros V.
    apply (proj1 (digits_valid_iff_32 "0123456789abcdef0123456789abcde" eq_refl)) in V.
    discriminate V.
  - intros V. apply (proj1 (digits_valid_iff_32 "" eq_refl)) in V. discriminate V.
Defined.

(** The bad values of the test suite that start with a digit. *)
Lemma stray_character_rejected_witness :
  is_valid_uuid4 "1x1x1x1x1x1x1x1x1x1x1x1x1x1x1x1x" = Ok false
  /\ is_valid_uuid4 "0123456789abcdef0123456789abcdex" = Ok false
  /\ is_valid_uuid4 "bad-uuid" = Ok false.
Proof.
  split; [|split].
  - apply (stray_character_rejected "1" "x" "1x1x1x1x1x1x1x1x1x1x1x1x1x1x1x");
      try reflexivity; discriminate.
  - apply (stray_character_rejected "0123456789abcdef0123456789abcde" "x" "");
      try reflexivity; discriminate.
  - reflexivity.
Defined.

(** Integer literals of 32 characters. *)
Lemma validator_accepts_integer_literals_witness :
  is_valid_uuid4 "0x0123456789abcdef0123456789abcd" = Ok true
  /\ is_valid_uuid4 "+0123456789abcdef0123456789abcde" = Ok true
  /\ is_valid_uuid4 "0123456789abcdef0123456789abcde " = Ok true.
Proof.
  split; [|split].
  - exact (proj1 (proj1 (validator_accepts_integer_literals
                           "0123456789abcdef0123456789abcd" eq_refl) eq_refl)).
  - exact (proj1 (proj2 (validator_accepts_integer_literals
                           "0123456789abcdef0123456789abcde" eq_refl) eq_refl)).
  - exact (proj2 (proj2 (proj2 (validator_accepts_integer_literals
                                  "0123456789abcdef0123456789abcde" eq_refl) eq_refl))).
Defined.

(** The bytes 0 to 15 as random bytes. *)
Lemma generated_id_is_valid_witness :
  Uuid4.uuid4_hex Cases.counting Demo.idle
  = (Ok "000102030405460788090a0b0c0d0e0f", Demo.idle)
  /\ is_valid_uuid4 "000102030405460788090a0b0c0d0e0f" = Ok true.
Proof.
  destruct (@generated_id_is_valid Demo.Trace unit unit Cases.counting Demo.idle
              _ Demo.idle eq_refl eq_refl) as [id_value [H1 [_ [H3 _]]]].
  assert (E : Uuid4.uuid4_hex Cases.counting Demo.idle
              = (Ok "000102030405460788090a0b0c0d0e0f", Demo.idle)) by reflexivity.
  rewrite E in H1. inversion H1. subst id_value. split; [exact E|exact H3].
Defined.

(** ** From the generated UUID to its text and back *)

Module RoundTrip.
Import Py Uuid4.

Local Open Scope Z_scope.

Lemma scan_value (s : string) (seen : bool) (acc : Z) :
  hex_text s = true ->
  scan_digits s false seen acc
  = Some (digits_value s acc, (seen || negb (length s =? 0)%nat)%bool, ""%string).
Proof.
  unfold hex_text. revert seen acc. induction s as [|c s IH]; intros seen acc H.
  - cbn. rewrite orb_false_r. reflexivity.
  - cbn [all_chars] in H. apply andb_true_iff in H. destruct H as [Hc Hs].
    destruct (PyFacts.hex_char c Hc) as [_ [_ [_ [Hu [_ [_ [_ [_ [_ [d [Hd _]]]]]]]]]]].
    cbn [scan_digits digits_value]. rewrite Hu, Hd, (IH true _ Hs).
    cbn [length Nat.eqb negb orb]. rewrite orb_true_r. reflexivity.
Qed.

Lemma int16_value (s : string) :
  hex_text s = true -> s <> ""%string -> int16 s = Some (digits_value s 0).
Proof.
  intros H Hne. unfold int16, to_ascii. rewrite (PyFacts.all_ascii_hex_text s H).
  unfold long_from_string16.
  destruct s as [|c s]; [contradiction|].
  pose proof H as H'. unfold hex_text in H'. cbn [all_chars] in H'.
  apply andb_true_iff in H'. destruct H' as [Hc _].
  destruct (PyFacts.hex_char c Hc) as [_ [Hm [_ [Hu [_ [Hs [Hp _]]]]]]].
  cbn [skip_spaces]. rewrite Hs. cbn [take_sign]. rewrite Hp, Hm.
  rewrite (PyFacts.take_prefix16_hex_text _ H). cbn [starts_with_underscore]. rewrite Hu.
  rewrite (scan_value (String c s) false 0 H).
  cbn [length Nat.eqb negb orb skip_spaces]. f_equal. lia.
Qed.

Lemma digits_value_app (s t : string) (acc : Z) :
  digits_value (s ++ t) acc = digits_value t (digits_value s acc).
Proof.
  revert acc. induction s as [|c s IH]; intros acc; [reflexivity|].
  cbn [append digits_value]. apply IH.
Qed.

Lemma hex_digit_of (d : Z) : 0 <= d < 16 -> hex_digit (hex_char_of d) = Some d.
Proof.
  intros H.
  assert (C : d = 0 \/ d = 1 \/ d = 2 \/ d = 3 \/ d = 4 \/ d = 5 \/ d = 6 \/ d = 7
              \/ d = 8 \/ d = 9 \/ d = 10 \/ d = 11 \/ d = 12 \/ d = 13 \/ d = 14
              \/ d = 15) by lia.
  repeat (destruct C as [-> | C]; [reflexivity|]). subst d. reflexivity.
Qed.

(** With fuel enough, [hex_digits] puts before [acc] the digits that
    write [i]. *)
Lemma hex_digits_value (fuel : nat) (i : Z) (acc : string) :
  0 <= i < 16 ^ Z.of_nat fuel ->
  exists d,
    hex_digits fuel i acc = (d ++ acc)%string
    /\ forall a, digits_value d a = a * 16 ^ Z.of_nat (length d) + i.
Proof.
  revert i acc. induction fuel as [|fuel IH]; intros i acc H.
  - change (16 ^ Z.of_nat 0) with 1 in H. exists ""%string. split; [reflexivity|].
    intros a. cbn. lia.
  - cbn [hex_digits]. destruct (Z.eqb_spec i 0) as [->|N].
    + exists ""%string. split; [reflexivity|]. intros a. cbn. lia.
    + rewrite Nat2Z.inj_succ, Z.pow_succ_r in H by lia.
      assert (B : 0 <= i / 16 < 16 ^ Z.of_nat fuel).
      { split; [apply Z.div_pos; lia|apply Z.div_lt_upper_bound; lia]. }
      destruct (IH (i / 16) (String (hex_char_of (i mod 16)) acc) B) as [d [E V]].
      exists (d ++ String (hex_char_of (i mod 16)) "")%string. split.
      * rewrite E, PyFacts.app_assoc. reflexivity.
      * intros a. rewrite digits_value_app, V. cbn [digits_value].
        rewrite hex_digit_of by (apply Z.mod_pos_bound; lia).
        rewrite PyFacts.length_app. cbn [length].
        rewrite Nat.add_1_r, Nat2Z.inj_succ, Z.pow_succ_r by lia.
        pose proof (Z.div_mod i 16 ltac:(lia)). lia.
Qed.

Lemma zeros_value (n : nat) (t : string) : digits_value (zeros n ++ t) 0 = digits_value t 0.
Proof. induction n as [|n IH]; [reflexivity|]. cbn [zeros append digits_value]. exact IH. Qed.

Lemma format_x_value (i : Z) : 0 <= i -> digits_value (format_x i) 0 = i.
Proof.
  intros H. unfold format_x. destruct (Z.eqb_spec i 0) as [->|N]; [reflexivity|].
  assert (F : 0 <= i < 16 ^ Z.of_nat (S (Z.to_nat (Z.log2 i)))).
  { split; [exact H|].
    pose proof (Z.log2_spec i ltac:(lia)) as [_ U].
    pose proof (Z.log2_nonneg i) as P.
    rewrite Nat2Z.inj_succ, Z2Nat.id by exact P.
    apply (Z.lt_le_trans _ _ _ U).
    apply Z.pow_le_mono_l. lia. }
  destruct (hex_digits_value _ i "" F) as [d [E V]].
  rewrite E, PyFacts.app_empty_r, V. lia.
Qed.

(** The text of a value below 2^128 is read back as that value. *)
Lemma int16_format_032x (i : Z) : 0 <= i < 2 ^ 128 -> int16 (format_032x i) = Some i.
Proof.
  intros H. pose proof (GeneratorFacts.format_032x_lower_hex32 i H) as L.
  unfold lower_hex32 in L. apply andb_true_iff in L. destruct L as [L C].
  apply Nat.eqb_eq in L.
  assert (X : hex_text (format_032x i) = true).
  { unfold hex_text. revert C. apply PyFacts.all_chars_impl.
    exact PyFacts.lower_hex_is_hex. }
  rewrite int16_value; [|exact X|intros E; rewrite E in L; discriminate L].
  unfold format_032x. cbv zeta. rewrite zeros_value, format_x_value by lia. reflexivity.
Qed.

Lemma set_version_idempotent (i v : Z) :
  Uuid.set_version (Uuid.set_version i v) v = Uuid.set_version i v.
Proof.
  apply Z.bits_inj'. intros n Hn.
  rewrite (UuidFacts.set_version_bit (Uuid.set_version i v)) by exact Hn.
  rewrite (UuidFacts.set_version_bit i v n) by exact Hn.
  destruct (Z.testbit i n), (Z.testbit (Z.shiftl 49152 48) n),
    (Z.testbit (Z.shiftl 32768 48) n), (Z.testbit (Z.shiftl 61440 64) n),
    (Z.testbit (Z.shiftl v 76) n); reflexivity.
Qed.

End RoundTrip.

(** X17. The text of a UUID made from 16 bytes is read back by the
    constructor as that very UUID, with [version=4] as the validator
    calls it and without: nothing is lost between the default generator
    and the default validator. *)
Theorem generated_text_round_trip (random_bytes : list Byte.byte) (u : Uuid.UUID) :
  Uuid4.UUID_from_bytes random_bytes (Some 4%Z) = Ok u ->
  Uuid.UUID_init (Uuid4.hex u) (Some 4%Z) = Ok u
  /\ Uuid.UUID_init (Uuid4.hex u) None = Ok u
  /\ Py.int16 (Uuid4.hex u) = Some (Uuid.int u).
Proof.
  intros E.
  assert (L : List.length random_bytes = 16).
  { unfold Uuid4.UUID_from_bytes in E.
    destruct (Nat.eqb_spec (List.length random_bytes) 16) as [L|N]; [exact L|].
    discriminate E. }
  destruct (GeneratorFacts.UUID_from_bytes_16 random_bytes L) as [E' R].
  rewrite E' in E. inversion E as [U]. clear E. 
  set (i := Uuid.set_version (Uuid4.int_from_bytes random_bytes) 4) in *.
  unfold Uuid4.hex. cbn [Uuid.int].
  pose proof (RoundTrip.int16_format_032x i R) as V.
  pose proof (GeneratorFacts.format_032x_lower_hex32 i R) as X.
  unfold lower_hex32 in X. apply andb_true_iff in X. destruct X as [Xl Xc].
  assert (H : hex_text (Uuid4.format_032x i) = true).
  { unfold hex_text. revert Xc. apply PyFacts.all_chars_impl.
    exact PyFacts.lower_hex_is_hex. }
  assert (D : forall version,
             Uuid.UUID_init (Uuid4.format_032x i) version
             = match version with
               | None => Ok (Uuid.mkUUID i)
               | Some v =>
                   if negb ((1 <=? v) && (v <=? 5))%Z
                   then Raise (ValueError "illegal version number")
                   else Ok (Uuid.mkUUID (Uuid.set_version i v))
               end).
  { intros version. unfold Uuid.UUID_init. cbv zeta.
    fold (digits_of (Uuid4.format_032x i)).
    rewrite (UuidFacts.digits_of_hex_text _ H), Xl, V. cbn [negb].
    change (Z.shiftl 1 128) with (2 ^ 128)%Z.
    destruct (Z.leb_spec 0 i) as [_|F]; [|lia].
    destruct (Z.ltb_spec i (2 ^ 128)) as [_|F]; [|lia].
    reflexivity. }
  split; [|split].
  - rewrite D. cbn [Z.leb Z.compare andb negb]. unfold i at 1.
    rewrite RoundTrip.set_version_idempotent. reflexivity.
  - rewrite D. reflexivity.
  - exact V.
Qed.

(** The bytes 0 to 15 once more. *)
Lemma generated_text_round_trip_witness :
  Uuid.UUID_init "000102030405460788090a0b0c0d0e0f" (Some 4%Z)
  = Ok (Uuid.mkUUID 0x000102030405460788090a0b0c0d0e0f).
Proof.
  exact (proj1 (generated_text_round_trip
                  [Byte.x00; Byte.x01; Byte.x02; Byte.x03; Byte.x04; Byte.x05; Byte.x06;
                   Byte.x07; Byte.x08; Byte.x09; Byte.x0a; Byte.x0b; Byte.x0c; Byte.x0d;
                   Byte.x0e; Byte.x0f]
                  (Uuid.mkUUID 0x000102030405460788090a0b0c0d0e0f) eq_refl)).
Defined.
